(** * Alcohol consumption tracker: the aggregation, cooldown, export and
      session logic of [src/src/App.jsx] (the fixed one-hour variant) and of
      [src/unnamed/part_000] (the variant with a configurable waiting time,
      decimal amounts and suggestions).

    Conventions of the embedding.

    - A [Date] is its time value: milliseconds since the epoch, a [Z] of
      magnitude at most 8.64e15 ([validTime]).  A record's [timestamp] is
      written by [new Date().toISOString()] and read back by
      [new Date(record.timestamp)]; the two are inverse on valid time
      values, so a record carries the time value itself.  A date computed
      beyond that range is an Invalid Date ([timeClip]).
    - [new Date()] is an explicit argument [now] of every function that
      samples the clock.
    - Time values and minutes are doubles in the program and integers here.
      The two agree as long as the integers are below 2^53 in magnitude;
      the statements on exact minutes carry this bound ([exactMinutes]).
    - The operations of JavaScript numbers that the amounts go through (the
      literal [0], [+], [<=], [String], [toFixed(1)]) are the interface
      [JsNumber]; [IntNum] is its instance for integer amounts and [NaN],
      which agrees with the doubles for integers up to 2^53 ([safeInteger]).
    - Strings are sequences of code units below 256 (Latin-1).
    - A JavaScript object used as a map is the list of its own properties in
      the order [Object.keys] enumerates them.  Its prototype is
      [Object.prototype]: a read [o[k]] finds an own property or else a
      member of the prototype ([JsObject.lookup]), and a write [o[k] = v]
      defines or replaces an own property unless [k] is the accessor
      ["__proto__"] ([JsObject.assign]).
    - [localStorage] is a record of the two keys the program uses; a stored
      JSON text is identified with the document it denotes.  This is exact
      for the amounts JSON writes as they are ([storable]); [NaN] and the
      infinities are written as [null], and the statements about what is
      read back from the store are made for storable amounts.
    - An event handler is a function from the component state and the
      storage to the state and the storage after it; a handler that throws
      has called no setter and saved nothing, and leaves both as they were. *)

From Stdlib Require Import ZArith List String Ascii Bool Lia Arith.
From Stdlib Require Import DecimalString.
From Stdlib Require DecimalN DecimalPos.
Import ListNotations.

Open Scope string_scope.
Open Scope Z_scope.

(** * Part I: the embedding *)

(** ** Strings *)

Module JsString.

Definition code (c : ascii) : Z := Z.of_N (N_of_ascii c).

Definition of_code (n : Z) : ascii := ascii_of_N (Z.to_N n).

(** [WhiteSpace] and [LineTerminator] code units below 256. *)
Definition isWhiteSpace (c : ascii) : bool :=
  let n := code c in
  ((9 <=? n) && (n <=? 13)) || (n =? 32) || (n =? 160).

(** [String.prototype.toLowerCase], one code unit: A-Z, and the Latin-1
    capitals U+00C0-U+00DE except the multiplication sign U+00D7. *)
Definition lowerChar (c : ascii) : ascii :=
  let n := code c in
  if ((65 <=? n) && (n <=? 90))
     || ((192 <=? n) && (n <=? 222) && negb (n =? 215))
  then of_code (n + 32) else c.

Fixpoint toLowerCase (s : string) : string :=
  match s with
  | EmptyString => EmptyString
  | String c s' => String (lowerChar c) (toLowerCase s')
  end.

Fixpoint trimStart (s : string) : string :=
  match s with
  | EmptyString => EmptyString
  | String c s' => if isWhiteSpace c then trimStart s' else s
  end.

(** Drops the trailing white space: after this character, keep what is left
    of the rest, and keep the character unless it is blank and nothing is
    left after it. *)
Fixpoint trimEnd (s : string) : string :=
  match s with
  | EmptyString => EmptyString
  | String c s' =>
      match trimEnd s' with
      | EmptyString => if isWhiteSpace c then EmptyString else String c EmptyString
      | rest => String c rest
      end
  end.

Definition trim (s : string) : string := trimEnd (trimStart s).

Fixpoint startsWith (s search : string) : bool :=
  match search, s with
  | EmptyString, _ => true
  | String _ _, EmptyString => false
  | String a search', String b s' => Ascii.eqb a b && startsWith s' search'
  end.

(** [String.prototype.includes]: [search] occurs at some position of [s]. *)
Fixpoint includes (s search : string) : bool :=
  startsWith s search ||
  match s with
  | EmptyString => false
  | String _ s' => includes s' search
  end.

(** A string in a condition: only the empty string is falsy. *)
Definition truthy (s : string) : bool := negb (String.eqb s "").

(** [Array.prototype.join] on strings. *)
Definition join (sep : string) (parts : list string) : string :=
  String.concat sep parts.

Definition isDigit (c : ascii) : bool := (48 <=? code c) && (code c <=? 57).

Definition digitValue (c : ascii) : Z := code c - 48.

(** The longest prefix of decimal digits, as (value, whether it has a digit). *)
Fixpoint digitsPrefix (acc : Z) (seen : bool) (s : string) : Z * bool :=
  match s with
  | EmptyString => (acc, seen)
  | String c s' =>
      if isDigit c then digitsPrefix (acc * 10 + digitValue c) true s'
      else (acc, seen)
  end.

Fixpoint allDigits (s : string) : bool :=
  match s with
  | EmptyString => true
  | String c s' => isDigit c && allDigits s'
  end.

(** Decimal digits of a non-negative integer ([Number.prototype.toString]). *)
Definition natToString (n : Z) : string :=
  NilZero.string_of_uint (N.to_uint (Z.to_N n)).

Definition intToString (n : Z) : string :=
  if n <? 0 then "-" ++ natToString (- n) else natToString n.

Fixpoint repeat0 (k : nat) : string :=
  match k with
  | O => EmptyString
  | S k' => String "0" (repeat0 k')
  end.

(** [String.prototype.padStart(targetLength, '0')]. *)
Definition padStart0 (targetLength : nat) (s : string) : string :=
  repeat0 (targetLength - String.length s) ++ s.

End JsString.

Import JsString.

(** ** The number field *)

Module NumberInput.

(** What is left of a string after its leading decimal digits. *)
Fixpoint skipDigits (s : string) : string :=
  match s with
  | EmptyString => EmptyString
  | String c s' => if isDigit c then skipDigits s' else s
  end.

Definition startsWithDigit (s : string) : bool :=
  match s with
  | EmptyString => false
  | String c _ => isDigit c
  end.

(** One or more digits, and nothing else. *)
Definition isDigits (s : string) : bool :=
  startsWithDigit s && String.eqb (skipDigits s) "".

(** After the mantissa: nothing, or "e" or "E", an optional sign and one or
    more digits. *)
Definition isExponentOrEnd (s : string) : bool :=
  match s with
  | EmptyString => true
  | String c r =>
      (Ascii.eqb c "e" || Ascii.eqb c "E") &&
      match r with
      | String "-" digits => isDigits digits
      | String "+" digits => isDigits digits
      | _ => isDigits r
      end
  end.

(** A valid floating-point number of HTML: an optional "-", then digits, or
    digits, a "." and digits, or a "." and digits, then an optional
    exponent. *)
Definition isValidFloatingPointNumber (s : string) : bool :=
  let s := match s with String "-" r => r | _ => s end in
  match skipDigits s with
  | String "." fraction =>
      startsWithDigit fraction && isExponentOrEnd (skipDigits fraction)
  | rest => startsWithDigit s && isExponentOrEnd rest
  end.

Section Field.

(** Whether the number that a valid text denotes rounds to a finite double
    (a text such as "1e999" does not). *)
Variable finite : string -> bool.

(** The [value] of an [<input type="number">] in which [text] was entered.
    By the value sanitization algorithm, text that is not a valid
    floating-point number is reported as the empty string; the browsers
    report a number that is too large for a double in the same way. *)
Definition value (text : string) : string :=
  if isValidFloatingPointNumber text && finite text then text else "".

End Field.

End NumberInput.

(** ** Numbers *)

(** What the program does with an amount.  [nan] and [ofZ] are the values
    [parseInt] can return: [ofZ z] is the number for the integer a run of
    digits denotes (the nearest double).  [storable] tells the numbers that
    [JSON.stringify] writes and [JSON.parse] reads back as they are (up to
    the sign of zero): all but [NaN] and the infinities, which are written
    as [null]. *)
Class JsNumber : Type := {
  num : Type;
  zero : num;
  nan : num;
  ofZ : Z -> num;
  add : num -> num -> num;
  leb : num -> num -> bool;
  toString : num -> string;
  toFixed1 : num -> string;
  storable : num -> bool
}.

(** The order facts used below.  IEEE doubles have them (rounding is
    monotone, and a comparison with [NaN] is false); [add_zero_r] holds
    there up to the sign of zero. *)
Class JsNumberLaws (N : JsNumber) : Prop := {
  leb_zero_zero : leb zero zero = true;
  add_zero_r : forall x, add x zero = x;
  add_leb_mono : forall a b x,
    leb zero a = true -> leb a b = true -> leb zero x = true ->
    leb (add a x) (add b x) = true;
  add_leb_incr : forall a b x,
    leb zero a = true -> leb a b = true -> leb zero x = true ->
    leb a (add b x) = true
}.

(** [parseInt(string, 10)]: leading white space is skipped, then an optional
    sign, then the longest run of decimal digits, whose integer is turned
    into a number by [ofZ]; [NaN] when there is none. *)
Definition parseInt10 {N : JsNumber} (s : string) : num :=
  let s1 := trimStart s in
  let '(sign, s2) :=
    match s1 with
    | String "-" r => (-1, r)
    | String "+" r => (1, r)
    | _ => (1, s1)
    end in
  match digitsPrefix 0 false s2 with
  | (z, true) => ofZ (sign * z)
  | (_, false) => nan
  end.

(** Integer amounts and [NaN].  The integers stand for the doubles of the
    same value, which exist, and are printed digit by digit, up to 2^53. *)
Inductive IntNum : Type :=
| NaN : IntNum
| Int : Z -> IntNum.

Definition IntNum_add (a b : IntNum) : IntNum :=
  match a, b with
  | Int x, Int y => Int (x + y)
  | _, _ => NaN
  end.

Definition IntNum_leb (a b : IntNum) : bool :=
  match a, b with
  | Int x, Int y => x <=? y
  | _, _ => false
  end.

Definition IntNum_toString (a : IntNum) : string :=
  match a with
  | NaN => "NaN"
  | Int z => intToString z
  end.

Definition IntNum_toFixed1 (a : IntNum) : string :=
  match a with
  | NaN => "NaN"
  | Int z => intToString z ++ ".0"
  end.

Definition IntNum_storable (a : IntNum) : bool :=
  match a with
  | NaN => false
  | Int _ => true
  end.

#[export] Instance IntNumber : JsNumber := {
  num := IntNum;
  zero := Int 0;
  nan := NaN;
  ofZ := Int;
  add := IntNum_add;
  leb := IntNum_leb;
  toString := IntNum_toString;
  toFixed1 := IntNum_toFixed1;
  storable := IntNum_storable
}.

(** ** Objects used as maps *)

Module JsObject.

(** An array index: the canonical decimal string of an integer below
    2^32 - 1.  [Object.keys] lists such keys first, in ascending order. *)
Definition arrayIndex (k : string) : option Z :=
  match k with
  | EmptyString => None
  | String c rest =>
      if allDigits k && (negb (Ascii.eqb c "0") || String.eqb rest "")
      then let n := fst (digitsPrefix 0 false k) in
           if n <? 4294967295 then Some n else None
      else None
  end.

(** The property names of [Object.prototype], which every object literal and
    every object that [JSON.parse] returns inherits. *)
Definition inheritedNames : list string :=
  ["constructor"; "hasOwnProperty"; "isPrototypeOf"; "propertyIsEnumerable";
   "toLocaleString"; "toString"; "valueOf"; "__proto__";
   "__defineGetter__"; "__defineSetter__";
   "__lookupGetter__"; "__lookupSetter__"].

Definition inherited (k : string) : bool :=
  existsb (String.eqb k) inheritedNames.

Section WithValue.

Context {V : Type}.

(** The own properties, in enumeration order. *)
Definition obj : Type := list (string * V).

Definition empty : obj := [].

(** The own property [k], if there is one. *)
Fixpoint get (o : obj) (k : string) : option V :=
  match o with
  | [] => None
  | (k', v) :: o' => if String.eqb k' k then Some v else get o' k
  end.

Definition has (o : obj) (k : string) : bool :=
  match get o k with Some _ => true | None => false end.

(** Assignment to an existing property keeps its place. *)
Fixpoint replace (o : obj) (k : string) (v : V) : obj :=
  match o with
  | [] => []
  | (k', v') :: o' =>
      if String.eqb k' k then (k', v) :: o' else (k', v') :: replace o' k v
  end.

(** A new array-index key goes before the first key that is not an array
    index or is a larger one. *)
Fixpoint insertIndex (n : Z) (k : string) (v : V) (o : obj) : obj :=
  match o with
  | [] => [(k, v)]
  | (k', v') :: o' =>
      match arrayIndex k' with
      | Some n' =>
          if n <? n' then (k, v) :: o else (k', v') :: insertIndex n k v o'
      | None => (k, v) :: o
      end
  end.

(** The own property [k] is given the value [v]: replaced where it is, or
    created at its place in the enumeration order. *)
Definition set (o : obj) (k : string) (v : V) : obj :=
  if has o k then replace o k v
  else match arrayIndex k with
       | Some n => insertIndex n k v o
       | None => (o ++ [(k, v)])%list
       end.

(** What [o[k]] evaluates to: the value of the own property, or a member of
    [Object.prototype] (a function, or the prototype itself for
    ["__proto__"]; never an array, always truthy), or [undefined]. *)
Inductive Lookup : Type :=
| Own : V -> Lookup
| Inherited : Lookup
| Undefined : Lookup.

Definition lookup (o : obj) (k : string) : Lookup :=
  match get o k with
  | Some v => Own v
  | None => if inherited k then Inherited else Undefined
  end.

(** [o[k] = v] for an array [v].  A key that is not an own property is
    looked for in the prototype: the members of [Object.prototype] are
    writable data properties, which the assignment shadows with a new own
    property, except ["__proto__"], an accessor whose setter makes [v] the
    prototype of [o] and adds no property. *)
Definition assign (o : obj) (k : string) (v : V) : obj :=
  if negb (has o k) && String.eqb k "__proto__" then o else set o k v.

Definition keys (o : obj) : list string := map fst o.
Definition values (o : obj) : list V := map snd o.
Definition entries (o : obj) : list (string * V) := o.

End WithValue.

Arguments obj V : clear implicits.
Arguments Lookup V : clear implicits.

End JsObject.

(** ** date-fns *)

Module DateFns.

Definition MILLISECONDS_IN_MINUTE : Z := 60000.
Definition MILLISECONDS_IN_HOUR : Z := 3600000.
Definition MILLISECONDS_IN_DAY : Z := 86400000.

(** The largest magnitude of the time value of a [Date]. *)
Definition MAX_TIME : Z := 8640000000000000.

(** [TimeClip], applied whenever a [Date] is built from a time value: beyond
    the range the time value is [NaN] ([None]), an Invalid Date. *)
Definition timeClip (time : Z) : option Z :=
  if Z.abs time <=? MAX_TIME then Some time else None.

Definition addMilliseconds (date amount : Z) : Z := date + amount.

Definition addMinutes (date amount : Z) : Z :=
  addMilliseconds date (amount * MILLISECONDS_IN_MINUTE).

Definition addHours (date amount : Z) : Z :=
  addMilliseconds date (amount * MILLISECONDS_IN_HOUR).

Definition subHours (date amount : Z) : Z := addHours date (- amount).

Definition differenceInMilliseconds (dateLeft dateRight : Z) : Z :=
  dateLeft - dateRight.

(** The quotient is truncated toward zero. *)
Definition differenceInMinutes (dateLeft dateRight : Z) : Z :=
  Z.quot (differenceInMilliseconds dateLeft dateRight) MILLISECONDS_IN_MINUTE.

(** Calendar fields of a local time value (proleptic Gregorian calendar). *)
Record Civil : Type := mkCivil {
  fullYear : Z;
  month : Z;        (* 0-11, as [getMonth] *)
  dayOfMonth : Z;   (* 1-31, as [getDate] *)
  hours : Z;
  minutes : Z;
  seconds : Z
}.

Definition civilOfLocal (t : Z) : Civil :=
  let days := t / MILLISECONDS_IN_DAY in
  let ms := t mod MILLISECONDS_IN_DAY in
  let z := days + 719468 in
  let era := z / 146097 in
  let doe := z mod 146097 in
  let yoe := (doe - doe / 1460 + doe / 36524 - doe / 146096) / 365 in
  let doy := doe - (365 * yoe + yoe / 4 - yoe / 100) in
  let mp := (5 * doy + 2) / 153 in
  let d := doy - (153 * mp + 2) / 5 + 1 in
  let m := if mp <? 10 then mp + 3 else mp - 9 in
  let y := yoe + era * 400 + (if m <=? 2 then 1 else 0) in
  mkCivil y (m - 1) d
          (ms / MILLISECONDS_IN_HOUR)
          ((ms / MILLISECONDS_IN_MINUTE) mod 60)
          ((ms / 1000) mod 60).

Definition addLeadingZeros (number : Z) (targetLength : nat) : string :=
  let sign := if number <? 0 then "-" else "" in
  sign ++ padStart0 targetLength (natToString (Z.abs number)).

Section Local.

(** The offset of local time from UTC at an instant, in milliseconds. *)
Variable LocalTZA : Z -> Z.

Definition toLocal (date : Z) : Civil := civilOfLocal (date + LocalTZA date).

(** [format(date, 'yyyy-MM-dd')]. *)
Definition format_yyyy_MM_dd (date : Z) : string :=
  let c := toLocal date in
  let signedYear := fullYear c in
  let year := if 0 <? signedYear then signedYear else 1 - signedYear in
  addLeadingZeros year 4 ++ "-" ++ addLeadingZeros (month c + 1) 2
    ++ "-" ++ addLeadingZeros (dayOfMonth c) 2.

(** [format(date, 'HH:mm:ss')]. *)
Definition format_HH_mm_ss (date : Z) : string :=
  let c := toLocal date in
  addLeadingZeros (hours c) 2 ++ ":" ++ addLeadingZeros (minutes c) 2
    ++ ":" ++ addLeadingZeros (seconds c) 2.

End Local.

End DateFns.

Import DateFns.

(** ** Data model and storage *)

Section Tracker.

Context {N : JsNumber}.

(** [{ timestamp, amount }]. *)
Record ConsumptionRecord : Type := mkRecord {
  timestamp : Z;
  amount : num
}.

(** The document under the key [alcoholTracker]. *)
Definition Users : Type := JsObject.obj (list ConsumptionRecord).

(** [localStorage]: [None] is a key that was never written ([getItem]
    returns [null]). *)
Record Storage : Type := mkStorage {
  alcoholTracker : option Users;
  waitingTime : option string
}.

Definition getStoredUsers (ls : Storage) : Users :=
  match alcoholTracker ls with
  | Some users => users
  | None => JsObject.empty
  end.

(** [JSON.stringify] followed, at the next read, by [JSON.parse]: the same
    document when every amount in it is [storable]. *)
Definition saveUsers (users : Users) (ls : Storage) : Storage :=
  mkStorage (Some users) (waitingTime ls).

(** ** Record aggregator *)

(** [records.reduce((sum, record) => sum + record.amount, 0)]. *)
Definition sumAmounts (records : list ConsumptionRecord) : num :=
  fold_left (fun sum record => add sum (amount record)) records zero.

Definition totalConsumption (records : list ConsumptionRecord) : num :=
  sumAmounts records.

Definition calculateRecentConsumption
    (records : list ConsumptionRecord) (hoursAgo : Z) (now : Z) : num :=
  let cutoffTime := subHours now hoursAgo in
  fold_left (fun sum record => add sum (amount record))
    (filter (fun record => cutoffTime <? timestamp record) records)
    zero.

(** [records.length > 0 ? records[records.length - 1].timestamp : null]. *)
Definition lastConsumptionTime (records : list ConsumptionRecord) : option Z :=
  match records with
  | [] => None
  | r :: rs => Some (timestamp (last rs r))
  end.

Definition minutesSinceLastConsumption
    (records : list ConsumptionRecord) (now : Z) : option Z :=
  match lastConsumptionTime records with
  | Some t => Some (differenceInMinutes now t)
  | None => None
  end.

(** ** Exporter *)

(** A cell of a row before [join]: a string or a number. *)
Inductive Cell : Type :=
| Str : string -> Cell
| Num : num -> Cell.

Definition cellToString (c : Cell) : string :=
  match c with
  | Str s => s
  | Num n => toString n
  end.

(** [csvRows.map(row => row.join(',')).join('\n')]. *)
Definition csvContent (csvRows : list (list Cell)) : string :=
  join (String (ascii_of_nat 10) "")
       (map (fun row => join "," (map cellToString row)) csvRows).

(** What the created link carries: the [download] attribute and the text of
    the blob. *)
Record Download : Type := mkDownload {
  download : string;
  content : string
}.

(** The grand total of the all-users export (the same in both files). *)
Definition grandTotal (users : Users) : num :=
  fold_left (fun total records => add total (sumAmounts records))
            (JsObject.values users) zero.

End Tracker.

(** ** [src/unnamed/part_000]: configurable waiting time *)

Module Part000.

Section WithNumber.

Context {N : JsNumber}.

(** The built-in [parseFloat]. *)
Variable parseFloat : string -> num.

Variable LocalTZA : Z -> Z.

Definition getStoredWaitingTime (ls : Storage) : IntNum :=
  match waitingTime ls with
  | Some time => if truthy time then parseInt10 (N := IntNumber) time else Int 60
  | None => Int 60
  end.

(** [minutes.toString()]: the decimal digits of the integer, as long as it
    is a [safeInteger] (from 1e21 on the text of a number has an exponent). *)
Definition saveWaitingTime (minutes : IntNum) (ls : Storage) : Storage :=
  mkStorage (alcoholTracker ls) (Some (IntNum_toString minutes)).

(** When the date [addMinutes] builds is invalid, so is the difference
    ([NaN]), and [NaN > 0] is false. *)
Definition getWaitingTime (lastConsumptionTime waitingMinutes now : Z) : Z :=
  match timeClip (addMinutes lastConsumptionTime waitingMinutes) with
  | Some waitTimeAfterLast =>
      let waitMinutes := differenceInMinutes waitTimeAfterLast now in
      if 0 <? waitMinutes then waitMinutes else 0
  | None => 0
  end.

Definition downloadCSV_rows (records : list ConsumptionRecord) : list (list Cell) :=
  let headers := [Str "Date"; Str "Time"; Str "Amount (ml)"] in
  let csvRows := [headers] in
  let csvRows :=
    fold_left
      (fun csvRows record =>
         let date := timestamp record in
         csvRows ++ [[Str (format_yyyy_MM_dd LocalTZA date);
                      Str (format_HH_mm_ss LocalTZA date);
                      Num (amount record)]])%list
      records csvRows in
  let csvRows := (csvRows ++ [[]])%list in
  (csvRows ++
   [[Str "Total Consumption"; Str "";
     Str (toFixed1 (sumAmounts records) ++ " ml")]])%list.

Definition downloadCSV
    (records : list ConsumptionRecord) (userId : string) (now : Z) : Download :=
  mkDownload
    ("alcohol_consumption_" ++ userId ++ "_"
       ++ format_yyyy_MM_dd LocalTZA now ++ ".csv")
    (csvContent (downloadCSV_rows records)).

Definition downloadAllUsersCSV_rows (users : Users) : list (list Cell) :=
  let headers := [Str "User ID"; Str "Date"; Str "Time"; Str "Amount (ml)"] in
  let csvRows := [headers] in
  let csvRows :=
    fold_left
      (fun csvRows '(userId, records) =>
         if (List.length records =? 0)%nat then csvRows
         else
           let csvRows :=
             fold_left
               (fun csvRows record =>
                  let date := timestamp record in
                  csvRows ++ [[Str userId;
                               Str (format_yyyy_MM_dd LocalTZA date);
                               Str (format_HH_mm_ss LocalTZA date);
                               Str (toFixed1 (amount record))]])%list
               records csvRows in
           let csvRows := (csvRows ++ [[]])%list in
           let csvRows :=
             (csvRows ++
              [[Str ("Total for " ++ userId); Str ""; Str "";
                Str (toFixed1 (sumAmounts records) ++ " ml")]])%list in
           (csvRows ++ [[]])%list)
      (JsObject.entries users) csvRows in
  (csvRows ++
   [[Str "Grand Total"; Str ""; Str "";
     Str (toFixed1 (grandTotal users) ++ " ml")]])%list.

Definition downloadAllUsersCSV (ls : Storage) (now : Z) : Download :=
  let users := getStoredUsers ls in
  mkDownload
    ("all_users_alcohol_consumption_" ++ format_yyyy_MM_dd LocalTZA now ++ ".csv")
    (csvContent (downloadAllUsersCSV_rows users)).

(** The component state; [amount_input] is the state variable [amount]. *)
Record State : Type := mkState {
  userId : string;
  showNewUserPrompt : bool;
  currentUser : option string;
  amount_input : string;
  records : list ConsumptionRecord;
  waitingMinutes : IntNum;
  suggestions : list string;
  isInputActive : bool
}.

Definition initialState (ls : Storage) : State :=
  mkState "" false None "" [] (getStoredWaitingTime ls) [] false.

(** The effect on [userId]: the value it passes to [setSuggestions]. *)
Definition suggest (userId : string) (ls : Storage) : list string :=
  if truthy (trim userId) then
    let users := getStoredUsers ls in
    filter (fun id => includes (toLowerCase id) (toLowerCase userId))
           (JsObject.keys users)
  else [].

(** [handleSearch(selectedId = userId)].  An ID that is not stored and names
    a member of [Object.prototype] is selected as well, since that member is
    truthy; [setRecords] is then given a value that is not an array, which
    the state below cannot hold ([[]] stands in its place), and the render
    that follows throws on [records.reduce]: see [searchBreaksRender]. *)
Definition handleSearch (selected : option string) (st : State) (ls : Storage)
    : State :=
  let selectedId := match selected with Some id => id | None => userId st end in
  let users := getStoredUsers ls in
  match JsObject.lookup users selectedId with
  | JsObject.Own found =>
      mkState selectedId false (Some selectedId) (amount_input st) found
              (waitingMinutes st) [] (isInputActive st)
  | JsObject.Inherited =>
      mkState selectedId false (Some selectedId) (amount_input st) []
              (waitingMinutes st) [] (isInputActive st)
  | JsObject.Undefined =>
      mkState (userId st) true None (amount_input st) []
              (waitingMinutes st) (suggestions st) (isInputActive st)
  end.

(** The search has set [records] to a member of [Object.prototype]. *)
Definition searchBreaksRender (selected : option string) (st : State)
    (ls : Storage) : bool :=
  let selectedId := match selected with Some id => id | None => userId st end in
  match JsObject.lookup (getStoredUsers ls) selectedId with
  | JsObject.Inherited => true
  | _ => false
  end.

Definition handleSuggestionClick (suggestion : string) (st : State) (ls : Storage)
    : State :=
  handleSearch (Some suggestion) st ls.

Definition handleCreateUser (st : State) (ls : Storage) : State * Storage :=
  let users := getStoredUsers ls in
  let users := JsObject.assign users (userId st) [] in
  let ls := saveUsers users ls in
  (mkState (userId st) false (Some (userId st)) (amount_input st) []
           (waitingMinutes st) (suggestions st) (isInputActive st),
   ls).

(** [!currentUser]: [null] and the empty string are falsy. *)
Definition selectedUser (st : State) : option string :=
  match currentUser st with
  | Some id => if truthy id then Some id else None
  | None => None
  end.

(** The spread [[...(users[currentUser] || [])]] throws a [TypeError] when
    [users[currentUser]] is a member of [Object.prototype], which is truthy
    and not iterable: the handler stops there. *)
Definition handleAddRecord (st : State) (ls : Storage) (now : Z)
    : State * Storage :=
  match truthy (amount_input st), selectedUser st with
  | true, Some user =>
      let users := getStoredUsers ls in
      let newRecord := mkRecord now (parseFloat (amount_input st)) in
      match JsObject.lookup users user with
      | JsObject.Inherited => (st, ls)
      | found =>
          let old := match found with
                     | JsObject.Own l => l
                     | _ => []
                     end in
          let users := JsObject.assign users user (old ++ [newRecord])%list in
          let ls := saveUsers users ls in
          let shown := match JsObject.lookup users user with
                       | JsObject.Own l => l
                       | _ => []
                       end in
          (mkState (userId st) (showNewUserPrompt st) (currentUser st) ""
                   shown (waitingMinutes st) (suggestions st) (isInputActive st),
           ls)
      end
  | _, _ => (st, ls)
  end.

(** Whether the handler throws. *)
Definition handleAddRecord_throws (st : State) (ls : Storage) : bool :=
  match truthy (amount_input st), selectedUser st with
  | true, Some user =>
      match JsObject.lookup (getStoredUsers ls) user with
      | JsObject.Inherited => true
      | _ => false
      end
  | _, _ => false
  end.

Definition handleWaitingTimeChange (value : string) (st : State) (ls : Storage)
    : State * Storage :=
  let newTime := parseInt10 (N := IntNumber) value in
  match newTime with
  | Int z =>
      if 0 <? z
      then (mkState (userId st) (showNewUserPrompt st) (currentUser st)
                    (amount_input st) (records st) newTime (suggestions st)
                    (isInputActive st),
            saveWaitingTime newTime ls)
      else (st, ls)
  | NaN => (st, ls)
  end.

(** [waitingTimeNeeded]; date arithmetic on [NaN] compares false with 0. *)
Definition waitingTimeNeeded (st : State) (now : Z) : Z :=
  match lastConsumptionTime (records st), waitingMinutes st with
  | Some t, Int w => getWaitingTime t w now
  | _, _ => 0
  end.

(** The condition under which the warning is rendered. *)
Definition warningActive (st : State) (now : Z) : bool :=
  match selectedUser st, minutesSinceLastConsumption (records st) now,
        waitingMinutes st with
  | Some _, Some m, Int w => m <? w
  | _, _, _ => false
  end.

(** [last2HoursConsumption]. *)
Definition last2HoursConsumption (st : State) (now : Z) : num :=
  calculateRecentConsumption (records st) 2 now.

(** The input events: [onChange] of the user ID and of the amount, and
    [onFocus] of the user ID. *)
Definition setUserId (value : string) (st : State) : State :=
  mkState value (showNewUserPrompt st) (currentUser st) (amount_input st)
          (records st) (waitingMinutes st) (suggestions st) (isInputActive st).

Definition setAmount (value : string) (st : State) : State :=
  mkState (userId st) (showNewUserPrompt st) (currentUser st) value
          (records st) (waitingMinutes st) (suggestions st) (isInputActive st).

Definition setIsInputActive (value : bool) (st : State) : State :=
  mkState (userId st) (showNewUserPrompt st) (currentUser st) (amount_input st)
          (records st) (waitingMinutes st) (suggestions st) value.

(** The effect with the dependency [[userId]]: it runs after a render whose
    [userId] differs from the previous one, and sets the suggestions. *)
Definition commit (prev next : State) (ls : Storage) : State :=
  if String.eqb (userId prev) (userId next) then next
  else mkState (userId next) (showNewUserPrompt next) (currentUser next)
               (amount_input next) (records next) (waitingMinutes next)
               (suggest (userId next) ls) (isInputActive next).

(** What is rendered: [suggestions.length > 0 && isInputActive],
    [currentUser && ...] and [currentUser && records.length > 0 && ...]. *)
Definition showSuggestions (st : State) : bool :=
  negb (List.length (suggestions st) =? 0)%nat && isInputActive st.

Definition showAddForm (st : State) : bool :=
  match selectedUser st with Some _ => true | None => false end.

Definition showStatistics (st : State) : bool :=
  showAddForm st && negb (List.length (records st) =? 0)%nat.

End WithNumber.

End Part000.

(** ** [src/src/App.jsx]: fixed one-hour waiting time *)

Module App.

Section WithNumber.

Context {N : JsNumber}.

Variable LocalTZA : Z -> Z.

Definition getWaitingTime (lastConsumptionTime now : Z) : Z :=
  match timeClip (addHours lastConsumptionTime 1) with
  | Some oneHourAfterLast =>
      let waitMinutes := differenceInMinutes oneHourAfterLast now in
      if 0 <? waitMinutes then waitMinutes else 0
  | None => 0
  end.

Definition downloadCSV_rows (records : list ConsumptionRecord) : list (list Cell) :=
  let headers := [Str "Date"; Str "Time"; Str "Amount (ml)"] in
  let csvRows := [headers] in
  let csvRows :=
    fold_left
      (fun csvRows record =>
         let date := timestamp record in
         csvRows ++ [[Str (format_yyyy_MM_dd LocalTZA date);
                      Str (format_HH_mm_ss LocalTZA date);
                      Num (amount record)]])%list
      records csvRows in
  let csvRows := (csvRows ++ [[]])%list in
  (csvRows ++
   [[Str "Total Consumption"; Str "";
     Str (toString (sumAmounts records) ++ " ml")]])%list.

Definition downloadCSV
    (records : list ConsumptionRecord) (userId : string) (now : Z) : Download :=
  mkDownload
    ("alcohol_consumption_" ++ userId ++ "_"
       ++ format_yyyy_MM_dd LocalTZA now ++ ".csv")
    (csvContent (downloadCSV_rows records)).

Definition downloadAllUsersCSV_rows (users : Users) : list (list Cell) :=
  let headers := [Str "User ID"; Str "Date"; Str "Time"; Str "Amount (ml)"] in
  let csvRows := [headers] in
  let csvRows :=
    fold_left
      (fun csvRows '(userId, records) =>
         if (List.length records =? 0)%nat then csvRows
         else
           let csvRows :=
             fold_left
               (fun csvRows record =>
                  let date := timestamp record in
                  csvRows ++ [[Str userId;
                               Str (format_yyyy_MM_dd LocalTZA date);
                               Str (format_HH_mm_ss LocalTZA date);
                               Num (amount record)]])%list
               records csvRows in
           let csvRows := (csvRows ++ [[]])%list in
           let csvRows :=
             (csvRows ++
              [[Str ("Total for " ++ userId); Str ""; Str "";
                Str (toString (sumAmounts records) ++ " ml")]])%list in
           (csvRows ++ [[]])%list)
      (JsObject.entries users) csvRows in
  (csvRows ++
   [[Str "Grand Total"; Str ""; Str "";
     Str (toString (grandTotal users) ++ " ml")]])%list.

Definition downloadAllUsersCSV (ls : Storage) (now : Z) : Download :=
  let users := getStoredUsers ls in
  mkDownload
    ("all_users_alcohol_consumption_" ++ format_yyyy_MM_dd LocalTZA now ++ ".csv")
    (csvContent (downloadAllUsersCSV_rows users)).

(** The component state; [amount_input] is the state variable [amount]. *)
Record State : Type := mkState {
  userId : string;
  showNewUserPrompt : bool;
  currentUser : option string;
  amount_input : string;
  records : list ConsumptionRecord
}.

Definition initialState : State := mkState "" false None "" [].

(** As in [src/unnamed/part_000]: a member of [Object.prototype] is
    selected too, with [[]] in the place of the value that is not an array,
    and the render that follows throws ([searchBreaksRender]). *)
Definition handleSearch (st : State) (ls : Storage) : State :=
  let users := getStoredUsers ls in
  match JsObject.lookup users (userId st) with
  | JsObject.Own found =>
      mkState (userId st) false (Some (userId st)) (amount_input st) found
  | JsObject.Inherited =>
      mkState (userId st) false (Some (userId st)) (amount_input st) []
  | JsObject.Undefined => mkState (userId st) true None (amount_input st) []
  end.

Definition searchBreaksRender (st : State) (ls : Storage) : bool :=
  match JsObject.lookup (getStoredUsers ls) (userId st) with
  | JsObject.Inherited => true
  | _ => false
  end.

Definition handleCreateUser (st : State) (ls : Storage) : State * Storage :=
  let users := getStoredUsers ls in
  let users := JsObject.assign users (userId st) [] in
  let ls := saveUsers users ls in
  (mkState (userId st) false (Some (userId st)) (amount_input st) [], ls).

Definition selectedUser (st : State) : option string :=
  match currentUser st with
  | Some id => if truthy id then Some id else None
  | None => None
  end.

(** The spread throws on a member of [Object.prototype], as in
    [src/unnamed/part_000]. *)
Definition handleAddRecord (st : State) (ls : Storage) (now : Z)
    : State * Storage :=
  match truthy (amount_input st), selectedUser st with
  | true, Some user =>
      let users := getStoredUsers ls in
      let newRecord := mkRecord now (parseInt10 (amount_input st)) in
      match JsObject.lookup users user with
      | JsObject.Inherited => (st, ls)
      | found =>
          let old := match found with
                     | JsObject.Own l => l
                     | _ => []
                     end in
          let users := JsObject.assign users user (old ++ [newRecord])%list in
          let ls := saveUsers users ls in
          let shown := match JsObject.lookup users user with
                       | JsObject.Own l => l
                       | _ => []
                       end in
          (mkState (userId st) (showNewUserPrompt st) (currentUser st) "" shown,
           ls)
      end
  | _, _ => (st, ls)
  end.

Definition handleAddRecord_throws (st : State) (ls : Storage) : bool :=
  match truthy (amount_input st), selectedUser st with
  | true, Some user =>
      match JsObject.lookup (getStoredUsers ls) user with
      | JsObject.Inherited => true
      | _ => false
      end
  | _, _ => false
  end.

Definition waitingTimeNeeded (st : State) (now : Z) : Z :=
  match lastConsumptionTime (records st) with
  | Some t => getWaitingTime t now
  | None => 0
  end.

Definition warningActive (st : State) (now : Z) : bool :=
  match selectedUser st, minutesSinceLastConsumption (records st) now with
  | Some _, Some m => m <? 60
  | _, _ => false
  end.

Definition last2HoursConsumption (st : State) (now : Z) : num :=
  calculateRecentConsumption (records st) 2 now.

(** The input events: [onChange] of the user ID and of the amount. *)
Definition setUserId (value : string) (st : State) : State :=
  mkState value (showNewUserPrompt st) (currentUser st) (amount_input st)
          (records st).

Definition setAmount (value : string) (st : State) : State :=
  mkState (userId st) (showNewUserPrompt st) (currentUser st) value
          (records st).

(** What is rendered: [currentUser && ...] and
    [currentUser && records.length > 0 && ...]. *)
Definition showAddForm (st : State) : bool :=
  match selectedUser st with Some _ => true | None => false end.

Definition showStatistics (st : State) : bool :=
  showAddForm st && negb (List.length (records st) =? 0)%nat.

End WithNumber.

End App.

(** * Part II: vocabulary of the statements *)

(** The specification's reading of the remaining waiting time: the threshold
    minus the whole minutes elapsed since the last record, clamped at 0. *)
Definition minutesElapsed (lastTimestamp now : Z) : Z :=
  differenceInMinutes now lastTimestamp.

Definition waitingTimeRemaining_spec (lastTimestamp waitingMinutes now : Z) : Z :=
  Z.max 0 (waitingMinutes - minutesElapsed lastTimestamp now).

(** A time value that a [Date] holds. *)
Definition validTime (t : Z) : Prop := Z.abs t <= MAX_TIME.

(** An integer that a double holds exactly. *)
Definition safeInteger (z : Z) : Prop := Z.abs z <= 9007199254740992.

(** The difference of two time values is computed without rounding, and so
    is its number of whole minutes. *)
Definition exactMinutes (a b : Z) : Prop := safeInteger (a - b).

(** A number that [IntNum] holds as the program does. *)
Definition safeNumber (a : IntNum) : Prop :=
  match a with
  | NaN => True
  | Int z => safeInteger z
  end.

(** Bounds on concrete time values and integers. *)
Ltac in_range :=
  unfold validTime, exactMinutes, safeInteger, MAX_TIME, addMinutes,
    addMilliseconds, MILLISECONDS_IN_MINUTE; lia.


(** Two keys that may follow each other in an enumeration: array indices in
    ascending order, and no array index after another key. *)
Definition inOrder (k k' : string) : bool :=
  match JsObject.arrayIndex k, JsObject.arrayIndex k' with
  | Some n, Some n' => n <=? n'
  | Some _, None => true
  | None, None => true
  | None, Some _ => false
  end.

(** Keys in the order of [Object.keys]: the array indices first, ascending,
    then the other keys. *)
Fixpoint enumerationOrder (ks : list string) : bool :=
  match ks with
  | [] => true
  | k :: rest =>
      match rest with
      | [] => true
      | k' :: _ => inOrder k k'
      end && enumerationOrder rest
  end.

(** A string of exactly [k] decimal digits. *)
Definition digits (k : nat) (s : string) : bool :=
  (String.length s =? k)%nat && allDigits s.



(** Only white space (or nothing at all). *)
Fixpoint blank (s : string) : bool :=
  match s with
  | EmptyString => true
  | String c s' => isWhiteSpace c && blank s'
  end.

Section Vocabulary.

Context {N : JsNumber}.


(** An amount of the data model: not negative (and not [NaN]). *)
Definition nonNegative (r : ConsumptionRecord) : Prop :=
  leb zero (amount r) = true.

(** The record list a user has in the store, [[]] for an absent user
    ([users[id] || []]). *)
Definition recordsOf (users : Users) (id : string) : list ConsumptionRecord :=
  match JsObject.get users id with
  | Some l => l
  | None => []
  end.

(** The rows of the exports. *)
Definition singleHeader : list Cell := [Str "Date"; Str "Time"; Str "Amount (ml)"].

Definition summaryRow (total : string) : list Cell :=
  [Str "Total Consumption"; Str ""; Str (total ++ " ml")].

Definition allHeader : list Cell :=
  [Str "User ID"; Str "Date"; Str "Time"; Str "Amount (ml)"].

Definition grandTotalRow (total : string) : list Cell :=
  [Str "Grand Total"; Str ""; Str ""; Str (total ++ " ml")].

(** A user that has records. *)
Definition nonEmpty (e : string * list ConsumptionRecord) : bool :=
  negb (List.length (snd e) =? 0)%nat.

Section Rows.

Variable LocalTZA : Z -> Z.

(** The row of one record in the single-user export. *)
Definition recordRow (record : ConsumptionRecord) : list Cell :=
  [Str (format_yyyy_MM_dd LocalTZA (timestamp record));
   Str (format_HH_mm_ss LocalTZA (timestamp record));
   Num (amount record)].

(** How a variant prints an amount cell and a total. *)
Variable amountCell : num -> Cell.
Variable totalText : num -> string.

Definition userRow (userId : string) (record : ConsumptionRecord) : list Cell :=
  [Str userId;
   Str (format_yyyy_MM_dd LocalTZA (timestamp record));
   Str (format_HH_mm_ss LocalTZA (timestamp record));
   amountCell (amount record)].

Definition userTotalRow (e : string * list ConsumptionRecord) : list Cell :=
  [Str ("Total for " ++ fst e); Str ""; Str "";
   Str (totalText (sumAmounts (snd e)) ++ " ml")].

(** What a user with records contributes: the data rows, an empty row, the
    total row, an empty row. *)
Definition userBlock (e : string * list ConsumptionRecord) : list (list Cell) :=
  (map (userRow (fst e)) (snd e) ++ [[]; userTotalRow e; []])%list.

(** One turn of the loop over the users, with the variant's cells. *)
Definition allUsersStep (csvRows : list (list Cell))
    (e : string * list ConsumptionRecord) : list (list Cell) :=
  let '(userId, records) := e in
  if (List.length records =? 0)%nat then csvRows
  else
    let csvRows :=
      fold_left (fun csvRows record => csvRows ++ [userRow userId record])%list
                records csvRows in
    let csvRows := (csvRows ++ [[]])%list in
    let csvRows := (csvRows ++ [userTotalRow (userId, records)])%list in
    (csvRows ++ [[]])%list.

End Rows.

End Vocabulary.

(** ** Vocabulary of the further properties *)

(** The value of a decimal numeral read from the left, after [acc]. *)
Fixpoint uintValue (acc : Z) (d : Decimal.uint) : Z :=
  match d with
  | Decimal.Nil => acc
  | Decimal.D0 d' => uintValue (acc * 10 + 0) d'
  | Decimal.D1 d' => uintValue (acc * 10 + 1) d'
  | Decimal.D2 d' => uintValue (acc * 10 + 2) d'
  | Decimal.D3 d' => uintValue (acc * 10 + 3) d'
  | Decimal.D4 d' => uintValue (acc * 10 + 4) d'
  | Decimal.D5 d' => uintValue (acc * 10 + 5) d'
  | Decimal.D6 d' => uintValue (acc * 10 + 6) d'
  | Decimal.D7 d' => uintValue (acc * 10 + 7) d'
  | Decimal.D8 d' => uintValue (acc * 10 + 8) d'
  | Decimal.D9 d' => uintValue (acc * 10 + 9) d'
  end.

Definition nonNil (d : Decimal.uint) : bool :=
  match d with Decimal.Nil => false | _ => true end.

Section FurtherVocabulary.

Context {N : JsNumber}.

(** What a stored mapping built by the handlers satisfies: no user ID twice,
    and the keys in the order of [Object.keys]. *)
Definition storeInvariant (users : Users) : Prop :=
  NoDup (JsObject.keys users)
  /\ enumerationOrder (JsObject.keys users) = true.

(** Every user of [before] is still a user of [after]. *)
Definition keepsUsers (before after : Users) : Prop :=
  forall id, JsObject.has before id = true -> JsObject.has after id = true.

(** A user without records. *)
Definition noRecords (e : string * list ConsumptionRecord) : Prop := snd e = [].

End FurtherVocabulary.

(** ** Concrete inputs *)

(** A record with an integer amount. *)
Definition entry (t a : Z) : ConsumptionRecord (N := IntNumber) :=
  mkRecord t (Int a).

Module Examples.

(** Local time is UTC. *)
Definition utc : Z -> Z := fun _ => 0.

Definition aliceRecords : list (ConsumptionRecord (N := IntNumber)) :=
  [entry 0 30; entry 5400000 20].

Definition store : Storage (N := IntNumber) :=
  mkStorage
    (Some [("alice", aliceRecords); ("bob", []);
           ("ALex", [entry 1 5])])
    (Some "45").

Definition emptyStore : Storage (N := IntNumber) := mkStorage None None.

(** "bob" is selected and the amount input holds [text]. *)
Definition bobTyped (text : string) : App.State (N := IntNumber) :=
  App.mkState "bob" false (Some "bob") text [].

Definition bobTyped000 (text : string) : Part000.State (N := IntNumber) :=
  Part000.mkState "bob" false (Some "bob") text [] (Int 45) [] false.

(** The user ID input holds [text]; nobody is selected. *)
Definition typedId (text : string) : App.State (N := IntNumber) :=
  App.mkState text true None "" [].

Definition typedId000 (text : string) : Part000.State (N := IntNumber) :=
  Part000.mkState text true None "" [] (Int 60) [] false.


(** The component after a reload, with [text] typed as user ID. *)
Definition reloaded (text : string) : App.State (N := IntNumber) :=
  App.setUserId text App.initialState.

Definition reloaded000 (text : string) (ls : Storage (N := IntNumber))
    : Part000.State (N := IntNumber) :=
  Part000.setUserId text (Part000.initialState ls).



End Examples.


Import Examples.

(** * Part III: properties *)

(** ** Date formatting *)






Section FormatShape.

Variable LocalTZA : Z -> Z.



End FormatShape.

(** ** Cooldown *)

(** Truncated division by a minute, split by the sign of the dividend. *)
Lemma quot_minute_cases (x : Z) :
  exists q r, x = 60000 * q + r /\ Z.quot x 60000 = q /\
              ((0 <= x /\ 0 <= r < 60000) \/ (x < 0 /\ -60000 < r <= 0)).
Proof.
  exists (Z.quot x 60000), (Z.rem x 60000).
  split; [apply Z.quot_rem'|]. split; [reflexivity|].
  destruct (Z.le_gt_cases 0 x) as [Hx | Hx].
  - left. split; [assumption|]. apply Z.rem_bound_pos; lia.
  - right. split; [assumption|].
    pose proof (Z.rem_bound_pos_neg x 60000 ltac:(lia) ltac:(lia)). lia.
Qed.

Lemma timeClip_valid (t : Z) : validTime t -> timeClip t = Some t.
Proof.
  unfold validTime, timeClip. intro H.
  destruct (Z.leb_spec (Z.abs t) MAX_TIME); [reflexivity | lia].
Qed.

Lemma timeClip_invalid (t : Z) : ~ validTime t -> timeClip t = None.
Proof.
  unfold validTime, timeClip. intro H.
  destruct (Z.leb_spec (Z.abs t) MAX_TIME); [contradiction | reflexivity].
Qed.

Lemma validTime_dec (t : Z) : validTime t \/ ~ validTime t.
Proof. unfold validTime. lia. Qed.

Lemma getWaitingTime_max (l w n : Z) :
  validTime (l + w * 60000) ->
  Part000.getWaitingTime l w n = Z.max 0 (Z.quot (l + w * 60000 - n) 60000).
Proof.
  intro Hvalid.
  unfold Part000.getWaitingTime, differenceInMinutes, differenceInMilliseconds,
    addMinutes, addMilliseconds, MILLISECONDS_IN_MINUTE.
  rewrite (timeClip_valid _ Hvalid).
  destruct (Z.ltb_spec 0 (Z.quot (l + w * 60000 - n) 60000)); lia.
Qed.

Lemma getWaitingTime_invalid (l w n : Z) :
  ~ validTime (l + w * 60000) -> Part000.getWaitingTime l w n = 0.
Proof.
  intro Hinvalid.
  unfold Part000.getWaitingTime, addMinutes, addMilliseconds,
    MILLISECONDS_IN_MINUTE.
  rewrite (timeClip_invalid _ Hinvalid). reflexivity.
Qed.

Lemma getWaitingTime_App_60 (l n : Z) :
  App.getWaitingTime l n = Part000.getWaitingTime l 60 n.
Proof. reflexivity. Qed.

Lemma getWaitingTime_nonneg (l w n : Z) : 0 <= Part000.getWaitingTime l w n.
Proof.
  destruct (validTime_dec (l + w * 60000)) as [Hv | Hv].
  - rewrite (getWaitingTime_max _ _ _ Hv). lia.
  - rewrite (getWaitingTime_invalid _ _ _ Hv). lia.
Qed.

Lemma getWaitingTime_pos_iff (l w n : Z) :
  validTime (l + w * 60000) ->
  0 < Part000.getWaitingTime l w n <-> n + 60000 <= l + w * 60000.
Proof.
  intro Hv. rewrite (getWaitingTime_max _ _ _ Hv).
  destruct (quot_minute_cases (l + w * 60000 - n)) as (q & r & Hx & Hq & Hr).
  rewrite Hq. lia.
Qed.

Lemma getWaitingTime_zero (l w n : Z) :
  l + w * 60000 - 60000 < n -> Part000.getWaitingTime l w n = 0.
Proof.
  intro Hlate.
  destruct (validTime_dec (l + w * 60000)) as [Hv | Hv].
  - pose proof (getWaitingTime_pos_iff l w n Hv) as Hpos.
    pose proof (getWaitingTime_nonneg l w n). lia.
  - apply getWaitingTime_invalid. exact Hv.
Qed.

Lemma getWaitingTime_antitone (l w n1 n2 : Z) :
  n1 <= n2 -> Part000.getWaitingTime l w n2 <= Part000.getWaitingTime l w n1.
Proof.
  intro Hle.
  destruct (validTime_dec (l + w * 60000)) as [Hv | Hv].
  - rewrite !(getWaitingTime_max _ _ _ Hv).
    apply Z.max_le_compat_l, Z.quot_le_mono; lia.
  - rewrite !(getWaitingTime_invalid _ _ _ Hv). lia.
Qed.

(** C1 (as amended).  For time values of dates: the remaining waiting time
    is never negative; it is 0 when the last record's time plus the
    threshold is beyond the range of dates; otherwise it is the number of
    whole minutes, truncated toward zero, from [now] to that instant,
    clamped below at 0.  It is the threshold minus the whole elapsed minutes
    (clamped at 0) when [now] is not after the last record or a whole number
    of minutes after it; otherwise the started minute counts as elapsed and
    the result is one less.  In [src/src/App.jsx] the threshold is 60. *)
Theorem C1_waiting_time_whole_minutes_left (lastTimestamp waitingMinutes now : Z) :
  validTime lastTimestamp -> validTime now -> exactMinutes now lastTimestamp ->
  let deadline := lastTimestamp + waitingMinutes * 60000 in
  let remaining := Part000.getWaitingTime lastTimestamp waitingMinutes now in
  0 <= remaining
  /\ (~ validTime deadline -> remaining = 0)
  /\ (validTime deadline -> exactMinutes deadline now ->
      remaining = Z.max 0 (Z.quot (deadline - now) 60000)
      /\ (now <= lastTimestamp \/ (now - lastTimestamp) mod 60000 = 0 ->
          remaining = waitingTimeRemaining_spec lastTimestamp waitingMinutes now)
      /\ (lastTimestamp < now -> (now - lastTimestamp) mod 60000 <> 0 ->
          remaining
            = Z.max 0 (waitingMinutes - minutesElapsed lastTimestamp now - 1)))
  /\ App.getWaitingTime lastTimestamp now
       = Part000.getWaitingTime lastTimestamp 60 now.
Proof.
  intros _ _ _ deadline remaining. subst remaining deadline.
  split; [apply getWaitingTime_nonneg|].
  split; [apply getWaitingTime_invalid|].
  split; [|apply getWaitingTime_App_60].
  intros Hvalid _.
  rewrite (getWaitingTime_max _ _ _ Hvalid).
  unfold waitingTimeRemaining_spec, minutesElapsed, differenceInMinutes,
    differenceInMilliseconds, MILLISECONDS_IN_MINUTE.
  destruct (quot_minute_cases (lastTimestamp + waitingMinutes * 60000 - now))
    as (q & r & Hx & Hq & Hr).
  destruct (quot_minute_cases (now - lastTimestamp))
    as (q' & r' & Hx' & Hq' & Hr').
  rewrite Hq, Hq'.
  pose proof (Z.div_mod (now - lastTimestamp) 60000 ltac:(lia)) as Hdm.
  pose proof (Z.mod_pos_bound (now - lastTimestamp) 60000 ltac:(lia)) as Hmb.
  split; [reflexivity|]. split.
  - intros [Hle | Hmod].
    + lia.
    + rewrite Hmod in Hdm. lia.
  - intros Hlt Hmod.
    assert (r' = (now - lastTimestamp) mod 60000) as Hr'eq.
    { apply (Z.mod_unique_pos _ _ q'); lia. }
    lia.
Qed.

(** At 30 seconds after the last record, with a threshold of 60 minutes,
    the code answers 59 and the stated formula 60. *)
Lemma C1_counterexample :
  Part000.getWaitingTime 0 60 30000 = 59
  /\ waitingTimeRemaining_spec 0 60 30000 = 60
  /\ minutesElapsed 0 30000 = 0.
Proof. repeat split. Qed.

Lemma C1_witness :
  (validTime 5400000 /\ validTime 6000000 /\ exactMinutes 6000000 5400000
   /\ validTime (5400000 + 60 * 60000)
   /\ exactMinutes (5400000 + 60 * 60000) 6000000
   /\ (6000000 - 5400000) mod 60000 = 0)
  /\ Part000.getWaitingTime 5400000 60 6000000
       = waitingTimeRemaining_spec 5400000 60 6000000
  /\ (validTime 0 /\ validTime 30000 /\ exactMinutes 30000 0 /\ 0 < 30000)
  /\ Part000.getWaitingTime 0 60 30000 = Z.max 0 (60 - minutesElapsed 0 30000 - 1)
  /\ Part000.getWaitingTime 0 200000000000 0 = 0.
Proof.
  destruct (C1_waiting_time_whole_minutes_left 5400000 60 6000000
              ltac:(in_range) ltac:(in_range) ltac:(in_range))
    as (_ & _ & Hwhole & _).
  destruct (Hwhole ltac:(in_range) ltac:(in_range)) as (_ & Hwhole' & _).
  destruct (C1_waiting_time_whole_minutes_left 0 60 30000
              ltac:(in_range) ltac:(in_range) ltac:(in_range))
    as (_ & _ & Hpart & _).
  destruct (Hpart ltac:(in_range) ltac:(in_range)) as (_ & _ & Hpart').
  destruct (C1_waiting_time_whole_minutes_left 0 200000000000 0
              ltac:(in_range) ltac:(in_range) ltac:(in_range))
    as (_ & Hbeyond & _).
  split; [repeat split; in_range|].
  split; [apply Hwhole'; right; reflexivity|].
  split; [repeat split; in_range|].
  split; [apply Hpart'; [reflexivity | discriminate]|].
  apply Hbeyond. in_range.
Defined.

(** C2 (as amended).  For a fixed last record and threshold the remaining
    waiting time never increases as [now] advances (in both files).  When
    the last record's time plus the threshold is a date, it is positive
    exactly while at least one whole minute is left before that instant;
    when it is beyond the range of dates, the result is 0 throughout.  In
    both cases it is 0 from less than one minute before that instant on, so
    in particular at and after it. *)
Theorem C2_waiting_time_antitone_and_zero
    (lastTimestamp waitingMinutes now1 now2 : Z) :
  validTime lastTimestamp -> validTime now1 -> validTime now2 ->
  now1 <= now2 ->
  Part000.getWaitingTime lastTimestamp waitingMinutes now2
    <= Part000.getWaitingTime lastTimestamp waitingMinutes now1
  /\ (validTime (addMinutes lastTimestamp waitingMinutes) ->
      (0 < Part000.getWaitingTime lastTimestamp waitingMinutes now1
       <-> now1 + 60000 <= addMinutes lastTimestamp waitingMinutes))
  /\ (~ validTime (addMinutes lastTimestamp waitingMinutes) ->
      Part000.getWaitingTime lastTimestamp waitingMinutes now1 = 0)
  /\ (addMinutes lastTimestamp waitingMinutes - 60000 < now1 ->
      Part000.getWaitingTime lastTimestamp waitingMinutes now1 = 0)
  /\ (addMinutes lastTimestamp waitingMinutes <= now1 ->
      Part000.getWaitingTime lastTimestamp waitingMinutes now2 = 0)
  /\ App.getWaitingTime lastTimestamp now2 <= App.getWaitingTime lastTimestamp now1.
Proof.
  intros _ _ _ Hle.
  pose proof (getWaitingTime_antitone lastTimestamp 60 _ _ Hle) as Hanti60.
  rewrite <- !getWaitingTime_App_60 in Hanti60.
  unfold addMinutes, addMilliseconds, MILLISECONDS_IN_MINUTE.
  split; [apply getWaitingTime_antitone; exact Hle|].
  split; [apply getWaitingTime_pos_iff|].
  split; [apply getWaitingTime_invalid|].
  split; [apply getWaitingTime_zero|].
  split; [|exact Hanti60].
  intro Hpast. apply getWaitingTime_zero. lia.
Qed.

(** One millisecond after a record, with a threshold of one minute: the
    instant is strictly before the end of the waiting time, and the result
    is already 0. *)
Lemma C2_counterexample :
  (1 <? addMinutes 0 1) = true /\ Part000.getWaitingTime 0 1 1 = 0.
Proof. split; reflexivity. Qed.

Lemma C2_witness :
  (validTime 0 /\ validTime 60000 /\ validTime 120000 /\ 60000 <= 120000
   /\ validTime (addMinutes 0 60))
  /\ Part000.getWaitingTime 0 60 120000 <= Part000.getWaitingTime 0 60 60000
  /\ (0 < Part000.getWaitingTime 0 60 60000
      <-> 60000 + 60000 <= addMinutes 0 60).
Proof.
  pose proof (C2_waiting_time_antitone_and_zero 0 60 60000 120000
                ltac:(in_range) ltac:(in_range) ltac:(in_range) ltac:(lia))
    as (H1 & H2 & _).
  split; [repeat split; in_range|].
  split; [exact H1 | apply H2; in_range].
Defined.

(** ** Record aggregator *)

Section Aggregator.

Context {N : JsNumber}.

Implicit Types (records : list ConsumptionRecord) (r : ConsumptionRecord).






Section Order.

Context {L : JsNumberLaws N}.

(** The two accumulators of the filtered and of the whole sum, run side by
    side: the first stays at or above 0 and at or below the second. *)
Lemma filtered_fold_below (keep : ConsumptionRecord -> bool) records :
  Forall nonNegative records ->
  forall accRecent accTotal,
    leb zero accRecent = true -> leb accRecent accTotal = true ->
    leb (fold_left (fun sum r => add sum (amount r)) (filter keep records) accRecent)
        (fold_left (fun sum r => add sum (amount r)) records accTotal) = true.
Proof.
  induction 1 as [|r records Hr _ IH]; intros accRecent accTotal H0 Hle.
  - exact Hle.
  - simpl. destruct (keep r); simpl.
    + apply IH.
      * apply add_leb_incr; [apply leb_zero_zero | assumption | assumption].
      * apply add_leb_mono; assumption.
    + apply IH; [assumption|].
      apply add_leb_incr; assumption.
Qed.

(** C9.  With amounts that are not negative (the data model's records), the
    recent consumption over any window and at any reference time is at most
    the total consumption; the total of the empty list is 0. *)
Theorem C9_recent_at_most_total
    (records : list ConsumptionRecord) (h now : Z) :
  Forall nonNegative records ->
  leb (calculateRecentConsumption records h now) (totalConsumption records) = true
  /\ totalConsumption [] = zero.
Proof.
  intro Hnn. split; [|reflexivity].
  unfold calculateRecentConsumption, totalConsumption, sumAmounts.
  apply filtered_fold_below; [assumption | apply leb_zero_zero..].
Qed.

End Order.


End Aggregator.

#[export] Instance IntNumber_laws : JsNumberLaws IntNumber.
Proof.
  split.
  - reflexivity.
  - intros [|x]; simpl; [reflexivity|]. f_equal. lia.
  - intros [|a] [|b] [|x]; simpl; try discriminate.
    rewrite !Z.leb_le. lia.
  - intros [|a] [|b] [|x]; simpl; try discriminate.
    rewrite !Z.leb_le. lia.
Qed.


Lemma C9_witness :
  Forall nonNegative [entry 0 30; entry 5400000 20]
  /\ leb (calculateRecentConsumption
            [entry 0 30; entry 5400000 20] 1 7200000)
         (totalConsumption [entry 0 30; entry 5400000 20])
     = true.
Proof.
  assert (Hnn : Forall (nonNegative (N := IntNumber))
                  [entry 0 30; entry 5400000 20]).
  { repeat constructor. }
  split; [exact Hnn|].
  apply (C9_recent_at_most_total (L := IntNumber_laws) _ 1 7200000 Hnn).
Defined.

(** ** Objects used as maps *)

Open Scope list_scope.

Section ObjectFacts.

Context {V : Type}.

Implicit Types (o : JsObject.obj V) (k : string) (v : V).

Lemma get_replace_same o k v :
  JsObject.has o k = true -> JsObject.get (JsObject.replace o k v) k = Some v.
Proof.
  unfold JsObject.has.
  induction o as [|[k' v'] o IH]; simpl; [discriminate|].
  destruct (String.eqb k' k) eqn:E; simpl; rewrite E; auto.
Qed.

Lemma get_replace_other o k v k' :
  k' <> k -> JsObject.get (JsObject.replace o k v) k' = JsObject.get o k'.
Proof.
  intro Hne.
  induction o as [|[k0 v0] o IH]; simpl; [reflexivity|].
  destruct (String.eqb k0 k) eqn:E; simpl.
  - apply String.eqb_eq in E. subst k0.
    destruct (String.eqb k k') eqn:E'; [|reflexivity].
    apply String.eqb_eq in E'. congruence.
  - rewrite IH. reflexivity.
Qed.

Lemma get_insertIndex_same n o k v :
  JsObject.get o k = None -> JsObject.get (JsObject.insertIndex n k v o) k = Some v.
Proof.
  induction o as [|[k0 v0] o IH]; simpl; intro Hnone.
  - rewrite String.eqb_refl. reflexivity.
  - destruct (String.eqb k0 k) eqn:E; [discriminate|].
    destruct (JsObject.arrayIndex k0) as [n'|]; simpl.
    + destruct (n <? n'); simpl.
      * rewrite String.eqb_refl. reflexivity.
      * rewrite E. auto.
    + rewrite String.eqb_refl. reflexivity.
Qed.

Lemma get_insertIndex_other n o k v k' :
  k' <> k -> JsObject.get (JsObject.insertIndex n k v o) k' = JsObject.get o k'.
Proof.
  intro Hne. apply String.eqb_neq in Hne. rewrite String.eqb_sym in Hne.
  induction o as [|[k0 v0] o IH]; simpl.
  - rewrite Hne. reflexivity.
  - destruct (JsObject.arrayIndex k0) as [n'|]; simpl.
    + destruct (n <? n'); simpl.
      * rewrite Hne. reflexivity.
      * rewrite IH. reflexivity.
    + rewrite Hne. reflexivity.
Qed.

Lemma get_append_same o k v :
  JsObject.get o k = None -> JsObject.get (o ++ [(k, v)]) k = Some v.
Proof.
  induction o as [|[k0 v0] o IH]; simpl; intro Hnone.
  - rewrite String.eqb_refl. reflexivity.
  - destruct (String.eqb k0 k); [discriminate | auto].
Qed.

Lemma get_append_other o k v k' :
  k' <> k -> JsObject.get (o ++ [(k, v)]) k' = JsObject.get o k'.
Proof.
  intro Hne. apply String.eqb_neq in Hne. rewrite String.eqb_sym in Hne.
  induction o as [|[k0 v0] o IH]; simpl.
  - rewrite Hne. reflexivity.
  - rewrite IH. reflexivity.
Qed.

(** Reading back what was assigned. *)
Lemma get_set_same o k v : JsObject.get (JsObject.set o k v) k = Some v.
Proof.
  unfold JsObject.set.
  destruct (JsObject.has o k) eqn:Hhas.
  - apply get_replace_same. assumption.
  - assert (Hnone : JsObject.get o k = None).
    { unfold JsObject.has in Hhas. destruct (JsObject.get o k); congruence. }
    destruct (JsObject.arrayIndex k).
    + apply get_insertIndex_same. assumption.
    + apply get_append_same. assumption.
Qed.

(** An assignment leaves every other property as it was. *)
Lemma get_set_other o k v k' :
  k' <> k -> JsObject.get (JsObject.set o k v) k' = JsObject.get o k'.
Proof.
  intro Hne. unfold JsObject.set.
  destruct (JsObject.has o k).
  - apply get_replace_other. assumption.
  - destruct (JsObject.arrayIndex k).
    + apply get_insertIndex_other. assumption.
    + apply get_append_other. assumption.
Qed.

Lemma keys_replace o k v : JsObject.keys (JsObject.replace o k v) = JsObject.keys o.
Proof.
  unfold JsObject.keys.
  induction o as [|[k0 v0] o IH]; simpl; [reflexivity|].
  destruct (String.eqb k0 k); simpl; [reflexivity|].
  f_equal. exact IH.
Qed.

(** Assigning to an existing key keeps the enumeration order. *)
Lemma keys_set_existing o k v :
  JsObject.has o k = true -> JsObject.keys (JsObject.set o k v) = JsObject.keys o.
Proof.
  intro Hhas. unfold JsObject.set. rewrite Hhas. apply keys_replace.
Qed.

(** A new key that is not an array index goes last. *)
Lemma keys_set_new_name o k v :
  JsObject.has o k = false -> JsObject.arrayIndex k = None ->
  JsObject.keys (JsObject.set o k v) = (JsObject.keys o ++ [k])%list.
Proof.
  intros Hhas Hidx. unfold JsObject.set. rewrite Hhas, Hidx.
  unfold JsObject.keys. rewrite map_app. reflexivity.
Qed.

(** A new array-index key goes after the array indices up to it and before
    everything else. *)
Lemma insertIndex_split n o k v :
  exists before after,
    o = (before ++ after)%list
    /\ JsObject.insertIndex n k v o = (before ++ (k, v) :: after)%list
    /\ Forall (fun e => exists m, JsObject.arrayIndex (fst e) = Some m /\ m <= n)
              before
    /\ match after with
       | [] => True
       | e :: _ => match JsObject.arrayIndex (fst e) with
                   | Some m => n < m
                   | None => True
                   end
       end.
Proof.
  induction o as [|[k0 v0] o IH]; simpl.
  - exists [], []. repeat split. constructor.
  - destruct (JsObject.arrayIndex k0) as [n'|] eqn:E.
    + destruct (Z.ltb_spec n n') as [Hlt | Hge].
      * exists [], ((k0, v0) :: o). simpl. rewrite E.
        repeat split; [constructor | assumption].
      * destruct IH as (before & after & Ho & Hins & Hbefore & Hafter).
        exists ((k0, v0) :: before), after. simpl.
        rewrite Hins. rewrite <- Ho.
        repeat split; [|assumption].
        constructor; [|assumption].
        exists n'. split; [assumption | lia].
    + exists [], ((k0, v0) :: o). simpl. rewrite E.
      repeat split. constructor.
Qed.

Lemma enumerationOrder_snoc_name (ks : list string) k :
  JsObject.arrayIndex k = None ->
  enumerationOrder ks = true -> enumerationOrder (ks ++ [k]) = true.
Proof.
  intros Hname. induction ks as [|k0 ks IH]; [reflexivity|].
  cbn [enumerationOrder app]. destruct ks as [|k1 ks].
  - intros _. cbn. unfold inOrder. rewrite Hname.
    destruct (JsObject.arrayIndex k0); reflexivity.
  - rewrite !andb_true_iff. intros [H01 Hrest].
    split; [exact H01 | apply IH; exact Hrest].
Qed.

Lemma enumerationOrder_insertIndex n o k v :
  JsObject.arrayIndex k = Some n ->
  enumerationOrder (JsObject.keys o) = true ->
  enumerationOrder (JsObject.keys (JsObject.insertIndex n k v o)) = true.
Proof.
  intro Hidx. unfold JsObject.keys.
  induction o as [|[k0 v0] o IH]; [reflexivity|].
  cbn [JsObject.insertIndex]. intro Hord.
  assert (Hrest : enumerationOrder (map fst o) = true).
  { cbn [map enumerationOrder fst] in Hord.
    apply andb_true_iff in Hord. apply Hord. }
  destruct (JsObject.arrayIndex k0) as [n'|] eqn:E0.
  - destruct (Z.ltb_spec n n') as [Hlt | Hge].
    + cbn [map fst enumerationOrder]. cbn [map fst enumerationOrder] in Hord.
      rewrite Hord, andb_true_r. unfold inOrder. rewrite Hidx, E0.
      apply Z.leb_le. lia.
    + specialize (IH Hrest).
      cbn [map fst enumerationOrder]. rewrite IH, andb_true_r.
      destruct o as [|[k1 v1] o].
      * cbn. unfold inOrder. rewrite E0, Hidx. apply Z.leb_le. lia.
      * cbn [JsObject.insertIndex].
        cbn [map fst enumerationOrder] in Hord.
        apply andb_true_iff in Hord. destruct Hord as [H01 _].
        destruct (JsObject.arrayIndex k1) as [n1|] eqn:E1.
        -- destruct (n <? n1); cbn [map fst].
           ++ unfold inOrder. rewrite E0, Hidx. apply Z.leb_le. lia.
           ++ exact H01.
        -- cbn [map fst]. unfold inOrder. rewrite E0, Hidx. apply Z.leb_le. lia.
  - cbn [map fst enumerationOrder]. cbn [map fst enumerationOrder] in Hord.
    rewrite Hord, andb_true_r. unfold inOrder. rewrite Hidx, E0. reflexivity.
Qed.

(** Assignments keep the keys in enumeration order. *)
Lemma enumerationOrder_set o k v :
  enumerationOrder (JsObject.keys o) = true ->
  enumerationOrder (JsObject.keys (JsObject.set o k v)) = true.
Proof.
  intro Hord. unfold JsObject.set.
  destruct (JsObject.has o k).
  - rewrite keys_replace. exact Hord.
  - destruct (JsObject.arrayIndex k) as [n|] eqn:E.
    + apply enumerationOrder_insertIndex; assumption.
    + unfold JsObject.keys. rewrite map_app.
      apply enumerationOrder_snoc_name; assumption.
Qed.

(** *** Reads and writes through the prototype *)

Lemma lookup_cases o k :
  (exists v, JsObject.get o k = Some v /\ JsObject.lookup o k = JsObject.Own v)
  \/ (JsObject.get o k = None /\ JsObject.inherited k = true
      /\ JsObject.lookup o k = JsObject.Inherited)
  \/ (JsObject.get o k = None /\ JsObject.inherited k = false
      /\ JsObject.lookup o k = JsObject.Undefined).
Proof.
  unfold JsObject.lookup. destruct (JsObject.get o k) as [v|].
  - left. exists v. split; reflexivity.
  - destruct (JsObject.inherited k); [right; left | right; right]; repeat split.
Qed.

Lemma lookup_get o k v :
  JsObject.get o k = Some v -> JsObject.lookup o k = JsObject.Own v.
Proof. unfold JsObject.lookup. intros ->. reflexivity. Qed.

Lemma lookup_Inherited o k :
  JsObject.lookup o k = JsObject.Inherited <->
  JsObject.has o k = false /\ JsObject.inherited k = true.
Proof.
  unfold JsObject.lookup, JsObject.has.
  destruct (JsObject.get o k); [|destruct (JsObject.inherited k)];
    split; try discriminate; try (intros [H1 H2]; discriminate); auto.
Qed.

Lemma assign_set_own o k v :
  JsObject.has o k = true -> JsObject.assign o k v = JsObject.set o k v.
Proof. unfold JsObject.assign. intros ->. reflexivity. Qed.

Lemma assign_set_name o k v :
  k <> "__proto__"%string -> JsObject.assign o k v = JsObject.set o k v.
Proof.
  unfold JsObject.assign. intro Hne. apply String.eqb_neq in Hne.
  rewrite Hne, andb_false_r. reflexivity.
Qed.

Lemma assign_set o k v :
  JsObject.lookup o k <> JsObject.Inherited ->
  JsObject.assign o k v = JsObject.set o k v.
Proof.
  intro Hl. destruct (JsObject.has o k) eqn:Hhas.
  - apply assign_set_own. exact Hhas.
  - apply assign_set_name. intros ->. apply Hl. apply lookup_Inherited.
    split; [exact Hhas | reflexivity].
Qed.


Lemma assign_cases o k v :
  JsObject.assign o k v = JsObject.set o k v \/ JsObject.assign o k v = o.
Proof.
  unfold JsObject.assign.
  destruct (negb (JsObject.has o k) && String.eqb k "__proto__"); auto.
Qed.

Lemma get_assign_other o k v k' :
  k' <> k -> JsObject.get (JsObject.assign o k v) k' = JsObject.get o k'.
Proof.
  intro Hne. destruct (assign_cases o k v) as [-> | ->];
    [apply get_set_other; exact Hne | reflexivity].
Qed.

End ObjectFacts.

(** ** Session logic *)

Lemma truthy_true_iff (s : string) : truthy s = true <-> s <> "".
Proof.
  unfold truthy. rewrite negb_true_iff. apply String.eqb_neq.
Qed.


Section Session.

Context {N : JsNumber}.

Implicit Types (ls : Storage) (now : Z).

Lemma getStoredUsers_saveUsers (users : Users) ls :
  getStoredUsers (saveUsers users ls) = users.
Proof. reflexivity. Qed.

Lemma selectedUser_Part000 (st : Part000.State) user :
  Part000.selectedUser st = Some user ->
  Part000.currentUser st = Some user /\ user <> "".
Proof.
  unfold Part000.selectedUser.
  destruct (Part000.currentUser st) as [id|]; [|discriminate].
  destruct (truthy id) eqn:E; [|discriminate].
  intros [= ->]. split; [reflexivity | apply truthy_true_iff; assumption].
Qed.

Lemma selectedUser_App (st : App.State) user :
  App.selectedUser st = Some user ->
  App.currentUser st = Some user /\ user <> "".
Proof.
  unfold App.selectedUser.
  destruct (App.currentUser st) as [id|]; [|discriminate].
  destruct (truthy id) eqn:E; [|discriminate].
  intros [= ->]. split; [reflexivity | apply truthy_true_iff; assumption].
Qed.

(** *** Creating a user *)




(** *** Adding a record *)




Section AddRecord.

Variable parseFloat : string -> num.

(** The texts whose number the browser takes as a finite double. *)
Variable finite : string -> bool.





Lemma addRecord_appends_Part000 (st : Part000.State) ls now user :
  Part000.amount_input st <> "" -> Part000.selectedUser st = Some user ->
  JsObject.lookup (getStoredUsers ls) user <> JsObject.Inherited ->
  let users := getStoredUsers ls in
  let newRecord := mkRecord now (parseFloat (Part000.amount_input st)) in
  let after := Part000.handleAddRecord parseFloat st ls now in
  alcoholTracker (snd after)
    = Some (JsObject.set users user (recordsOf users user ++ [newRecord]))
  /\ recordsOf (getStoredUsers (snd after)) user
     = recordsOf users user ++ [newRecord]
  /\ Part000.records (fst after) = recordsOf users user ++ [newRecord]
  /\ Part000.amount_input (fst after) = "".
Proof.
  intros Hamount Hsel Hl users newRecord after.
  assert (Hrun : after
    = (Part000.mkState (Part000.userId st) (Part000.showNewUserPrompt st)
         (Part000.currentUser st) "" (recordsOf users user ++ [newRecord])
         (Part000.waitingMinutes st) (Part000.suggestions st)
         (Part000.isInputActive st),
       saveUsers (JsObject.set users user (recordsOf users user ++ [newRecord])) ls)).
  { subst after. unfold Part000.handleAddRecord.
    apply truthy_true_iff in Hamount. rewrite Hamount, Hsel.
    pose proof (assign_set users user (recordsOf users user ++ [newRecord]) Hl)
      as Hassign.
    pose proof (lookup_get _ _ _
                  (get_set_same users user (recordsOf users user ++ [newRecord])))
      as Hshown.
    subst newRecord users. unfold recordsOf in *.
    destruct (lookup_cases (getStoredUsers ls) user)
      as [(l & Hget & Hown) | [(_ & _ & Hinh) | (Hget & _ & Hund)]];
      [rewrite Hown | contradiction | rewrite Hund];
      rewrite Hget in *; cbv beta iota zeta in Hassign, Hshown |- *;
      rewrite Hassign, Hshown; reflexivity. }
  rewrite Hrun. cbn [fst snd Part000.records Part000.amount_input].
  split; [reflexivity|]. split; [|split; reflexivity].
  rewrite getStoredUsers_saveUsers. unfold recordsOf at 1.
  rewrite get_set_same. reflexivity.
Qed.

Lemma addRecord_appends_App (st : App.State) ls now user :
  App.amount_input st <> "" -> App.selectedUser st = Some user ->
  JsObject.lookup (getStoredUsers ls) user <> JsObject.Inherited ->
  let users := getStoredUsers ls in
  let newRecord := mkRecord now (parseInt10 (App.amount_input st)) in
  let after := App.handleAddRecord st ls now in
  alcoholTracker (snd after)
    = Some (JsObject.set users user (recordsOf users user ++ [newRecord]))
  /\ recordsOf (getStoredUsers (snd after)) user
     = recordsOf users user ++ [newRecord]
  /\ App.records (fst after) = recordsOf users user ++ [newRecord]
  /\ App.amount_input (fst after) = "".
Proof.
  intros Hamount Hsel Hl users newRecord after.
  assert (Hrun : after
    = (App.mkState (App.userId st) (App.showNewUserPrompt st)
         (App.currentUser st) "" (recordsOf users user ++ [newRecord]),
       saveUsers (JsObject.set users user (recordsOf users user ++ [newRecord])) ls)).
  { subst after. unfold App.handleAddRecord.
    apply truthy_true_iff in Hamount. rewrite Hamount, Hsel.
    pose proof (assign_set users user (recordsOf users user ++ [newRecord]) Hl)
      as Hassign.
    pose proof (lookup_get _ _ _
                  (get_set_same users user (recordsOf users user ++ [newRecord])))
      as Hshown.
    subst newRecord users. unfold recordsOf in *.
    destruct (lookup_cases (getStoredUsers ls) user)
      as [(l & Hget & Hown) | [(_ & _ & Hinh) | (Hget & _ & Hund)]];
      [rewrite Hown | contradiction | rewrite Hund];
      rewrite Hget in *; cbv beta iota zeta in Hassign, Hshown |- *;
      rewrite Hassign, Hshown; reflexivity. }
  rewrite Hrun. cbn [fst snd App.records App.amount_input].
  split; [reflexivity|]. split; [|split; reflexivity].
  rewrite getStoredUsers_saveUsers. unfold recordsOf at 1.
  rewrite get_set_same. reflexivity.
Qed.


(** C10.  Adding a record leaves the record list of every user other than
    the selected one as it was in the store, and leaves the stored waiting
    time as it was.  Both files. *)
Theorem C10_add_record_frame
    (st : Part000.State) (st0 : App.State) (ls : Storage) (now : Z)
    (other : string) :
  Part000.currentUser st <> Some other ->
  App.currentUser st0 <> Some other ->
  let after := Part000.handleAddRecord parseFloat st ls now in
  let after0 := App.handleAddRecord st0 ls now in
  JsObject.get (getStoredUsers (snd after)) other
    = JsObject.get (getStoredUsers ls) other
  /\ waitingTime (snd after) = waitingTime ls
  /\ JsObject.get (getStoredUsers (snd after0)) other
     = JsObject.get (getStoredUsers ls) other
  /\ waitingTime (snd after0) = waitingTime ls.
Proof.
  intros Hother Hother0 after after0. subst after after0.
  unfold Part000.handleAddRecord, App.handleAddRecord.
  repeat split.
  - destruct (truthy (Part000.amount_input st)); [|reflexivity].
    destruct (Part000.selectedUser st) as [user|] eqn:Hsel; [|reflexivity].
    apply selectedUser_Part000 in Hsel. destruct Hsel as [Hcur _].
    destruct (JsObject.lookup (getStoredUsers ls) user); [|reflexivity|];
      simpl; apply get_assign_other; congruence.
  - destruct (truthy (Part000.amount_input st)); [|reflexivity].
    destruct (Part000.selectedUser st) as [user|]; [|reflexivity].
    destruct (JsObject.lookup (getStoredUsers ls) user); reflexivity.
  - destruct (truthy (App.amount_input st0)); [|reflexivity].
    destruct (App.selectedUser st0) as [user|] eqn:Hsel; [|reflexivity].
    apply selectedUser_App in Hsel. destruct Hsel as [Hcur _].
    destruct (JsObject.lookup (getStoredUsers ls) user); [|reflexivity|];
      simpl; apply get_assign_other; congruence.
  - destruct (truthy (App.amount_input st0)); [|reflexivity].
    destruct (App.selectedUser st0) as [user|]; [|reflexivity].
    destruct (JsObject.lookup (getStoredUsers ls) user); reflexivity.
Qed.

End AddRecord.

(** *** The waiting-time setting ([src/unnamed/part_000]) *)

(** The waiting time is 60 when the key was never written.  A change of the
    input is taken only when it reads as a positive integer: then, for an
    integer up to 2^53, which a number holds exactly and prints digit by
    digit, the state holds it and the storage holds its decimal text; the
    users are as they were; an input that reads as no number, as zero or as
    a negative number changes nothing. *)
Theorem waiting_time_setting (value : string) (st : Part000.State) (ls : Storage) :
  let after := Part000.handleWaitingTimeChange value st ls in
  Part000.getStoredWaitingTime (mkStorage (alcoholTracker ls) None) = Int 60
  /\ alcoholTracker (snd after) = alcoholTracker ls
  /\ (forall z, parseInt10 (N := IntNumber) value = Int z -> 0 < z ->
        safeInteger z ->
        Part000.waitingMinutes (fst after) = Int z
        /\ waitingTime (snd after) = Some (intToString z))
  /\ (parseInt10 (N := IntNumber) value = NaN
      \/ (exists z, parseInt10 (N := IntNumber) value = Int z /\ z <= 0) ->
      after = (st, ls)).
Proof.
  intros after. subst after. unfold Part000.handleWaitingTimeChange.
  split; [reflexivity|].
  split.
  { destruct (parseInt10 value) as [|z]; [reflexivity|].
    destruct (0 <? z); reflexivity. }
  split.
  - intros z Hz Hpos _. rewrite Hz.
    apply Z.ltb_lt in Hpos. rewrite Hpos. split; reflexivity.
  - intros [Hnan | (z & Hz & Hle)].
    + rewrite Hnan. reflexivity.
    + rewrite Hz. apply Z.ltb_ge in Hle. rewrite Hle. reflexivity.
Qed.

End Session.

(** ** Exporter *)

Section ExportFacts.

Context {N : JsNumber}.

Variable LocalTZA : Z -> Z.

Implicit Types (records : list ConsumptionRecord) (users : Users).

(** Rows are pushed one at a time; the result is the rows so far followed
    by one row per element. *)
Lemma fold_push {A B : Type} (f : A -> B) (l : list A) (acc : list B) :
  fold_left (fun rows x => rows ++ [f x]) l acc = acc ++ map f l.
Proof.
  revert acc. induction l as [|x l IH]; intro acc; simpl.
  - symmetry. apply app_nil_r.
  - rewrite IH, <- app_assoc. reflexivity.
Qed.

Lemma downloadCSV_rows_Part000 records :
  Part000.downloadCSV_rows LocalTZA records
  = [singleHeader] ++ map (recordRow LocalTZA) records
      ++ [[]; summaryRow (toFixed1 (sumAmounts records))].
Proof.
  unfold Part000.downloadCSV_rows.
  change (fold_left _ records ?acc)
    with (fold_left (fun rows r => rows ++ [recordRow LocalTZA r]) records acc).
  rewrite fold_push, <- !app_assoc. reflexivity.
Qed.

Lemma downloadCSV_rows_App records :
  App.downloadCSV_rows LocalTZA records
  = [singleHeader] ++ map (recordRow LocalTZA) records
      ++ [[]; summaryRow (toString (sumAmounts records))].
Proof.
  unfold App.downloadCSV_rows.
  change (fold_left _ records ?acc)
    with (fold_left (fun rows r => rows ++ [recordRow LocalTZA r]) records acc).
  rewrite fold_push, <- !app_assoc. reflexivity.
Qed.

(** C7 (as amended).  The single-user export is, in this order: the header
    row [Date,Time,Amount (ml)]; one row per record in list order, holding
    the local date as yyyy-MM-dd, the local time as HH:mm:ss and the amount;
    an empty row; and the row [Total Consumption], empty field, the sum of
    the amounts followed by [ ml].  The sum is printed with one decimal in
    [src/unnamed/part_000] and as the number is in [src/src/App.jsx].  The
    text joins the fields of a row with commas and the rows with line
    feeds. *)
Theorem C7_single_user_export_layout
    (records : list ConsumptionRecord) (userId : string) (now : Z) :
  let row r := [Str (format_yyyy_MM_dd LocalTZA (timestamp r));
                Str (format_HH_mm_ss LocalTZA (timestamp r));
                Num (amount r)] in
  let text rows :=
    join (String (ascii_of_nat 10) "")
         (map (fun row => join "," (map cellToString row)) rows) in
  let rowsPart000 :=
    [[Str "Date"; Str "Time"; Str "Amount (ml)"]] ++ map row records
      ++ [[]; [Str "Total Consumption"; Str "";
               Str (toFixed1 (sumAmounts records) ++ " ml")%string]] in
  let rowsApp :=
    [[Str "Date"; Str "Time"; Str "Amount (ml)"]] ++ map row records
      ++ [[]; [Str "Total Consumption"; Str "";
               Str (toString (sumAmounts records) ++ " ml")%string]] in
  Part000.downloadCSV_rows LocalTZA records = rowsPart000
  /\ content (Part000.downloadCSV LocalTZA records userId now) = text rowsPart000
  /\ App.downloadCSV_rows LocalTZA records = rowsApp
  /\ content (App.downloadCSV LocalTZA records userId now) = text rowsApp
  /\ (forall r,
        join "," (map cellToString (row r))
        = (format_yyyy_MM_dd LocalTZA (timestamp r) ++ "," ++
           format_HH_mm_ss LocalTZA (timestamp r) ++ "," ++
           toString (amount r))%string).
Proof.
  intros row text rowsPart000 rowsApp.
  pose proof (downloadCSV_rows_Part000 records) as HP.
  pose proof (downloadCSV_rows_App records) as HA.
  split; [exact HP|].
  split.
  { unfold Part000.downloadCSV, csvContent. simpl content. rewrite HP.
    reflexivity. }
  split; [exact HA|].
  split.
  { unfold App.downloadCSV, csvContent. simpl content. rewrite HA.
    reflexivity. }
  intro r. reflexivity.
Qed.

(** *** All users *)

Section Block.

Variable amountCell : num -> Cell.
Variable totalText : num -> string.

Lemma allUsersStep_block csvRows e :
  allUsersStep LocalTZA amountCell totalText csvRows e
  = csvRows
      ++ (if nonEmpty e then userBlock LocalTZA amountCell totalText e else []).
Proof.
  destruct e as [userId records]. unfold allUsersStep, nonEmpty, userBlock.
  simpl fst; simpl snd.
  destruct (List.length records =? 0)%nat; simpl negb; cbv iota.
  - symmetry. apply app_nil_r.
  - rewrite (fold_push (userRow LocalTZA amountCell userId)).
    rewrite <- !app_assoc. reflexivity.
Qed.

Lemma allUsers_fold users csvRows :
  fold_left (allUsersStep LocalTZA amountCell totalText) users csvRows
  = csvRows
      ++ flat_map (userBlock LocalTZA amountCell totalText)
                  (filter nonEmpty users).
Proof.
  revert csvRows. induction users as [|e users IH]; intro csvRows.
  - simpl. symmetry. apply app_nil_r.
  - cbn [fold_left]. rewrite IH, allUsersStep_block. cbn [filter].
    destruct (nonEmpty e); cbn [flat_map].
    + rewrite <- app_assoc. reflexivity.
    + rewrite app_nil_r. reflexivity.
Qed.

End Block.

Lemma downloadAllUsersCSV_rows_Part000 users :
  Part000.downloadAllUsersCSV_rows LocalTZA users
  = [allHeader]
      ++ flat_map (userBlock LocalTZA (fun a => Str (toFixed1 a)) toFixed1)
                  (filter nonEmpty users)
      ++ [grandTotalRow (toFixed1 (grandTotal users))].
Proof.
  unfold Part000.downloadAllUsersCSV_rows, JsObject.entries.
  change (fold_left _ users [?h])
    with (fold_left (allUsersStep LocalTZA (fun a => Str (toFixed1 a)) toFixed1)
                     users [h]).
  rewrite allUsers_fold. rewrite <- app_assoc. reflexivity.
Qed.

Lemma downloadAllUsersCSV_rows_App users :
  App.downloadAllUsersCSV_rows LocalTZA users
  = [allHeader]
      ++ flat_map (userBlock LocalTZA Num toString) (filter nonEmpty users)
      ++ [grandTotalRow (toString (grandTotal users))].
Proof.
  unfold App.downloadAllUsersCSV_rows, JsObject.entries.
  change (fold_left _ users [?h])
    with (fold_left (allUsersStep LocalTZA Num toString) users [h]).
  rewrite allUsers_fold. rewrite <- app_assoc. reflexivity.
Qed.

Lemma grandTotal_fold users :
  grandTotal users
  = fold_left add (map sumAmounts (JsObject.values users)) zero.
Proof.
  unfold grandTotal. generalize (JsObject.values users) (zero : num).
  intro l. induction l as [|x l IH]; intro acc; simpl; [reflexivity | apply IH].
Qed.

Section Totals.

Context {L : JsNumberLaws N}.

Lemma fold_totals_nonEmpty users (acc : num) :
  fold_left add (map sumAmounts (JsObject.values users)) acc
  = fold_left add (map sumAmounts (JsObject.values (filter nonEmpty users))) acc.
Proof.
  revert acc. induction users as [|[userId records] users IH]; intro acc.
  - reflexivity.
  - cbn [JsObject.values map fold_left filter snd].
    unfold nonEmpty at 1. cbn [snd].
    destruct records as [|r records]; cbn [List.length Nat.eqb negb].
    + change (sumAmounts []) with (zero : num). rewrite add_zero_r. apply IH.
    + cbn [JsObject.values map fold_left snd]. apply IH.
Qed.

Lemma grandTotal_drop_empty (before after : Users) userId :
  grandTotal (before ++ (userId, []) :: after) = grandTotal (before ++ after).
Proof.
  rewrite !grandTotal_fold.
  rewrite (fold_totals_nonEmpty (before ++ (userId, []) :: after)).
  rewrite (fold_totals_nonEmpty (before ++ after)).
  rewrite !filter_app. reflexivity.
Qed.

(** C6.  In the all-users export the amount on the Grand Total row is the
    left-to-right sum of the totals of all users, which is also the sum of
    the totals on the per-user total rows; the rows are the header, then for
    each user that has records, in the order of the mapping, its data rows,
    an empty row, its total row and an empty row, then the Grand Total row;
    a user whose record list is empty can be removed from the mapping
    without changing any row.  Both files. *)
Theorem C6_all_users_export_totals (users : Users) :
  let shown := filter nonEmpty users in
  grandTotal users = fold_left add (map sumAmounts (JsObject.values users)) zero
  /\ grandTotal users
     = fold_left add (map (fun e => sumAmounts (snd e)) shown) zero
  /\ Part000.downloadAllUsersCSV_rows LocalTZA users
     = [allHeader]
         ++ flat_map (userBlock LocalTZA (fun a => Str (toFixed1 a)) toFixed1) shown
         ++ [grandTotalRow (toFixed1 (grandTotal users))]
  /\ App.downloadAllUsersCSV_rows LocalTZA users
     = [allHeader]
         ++ flat_map (userBlock LocalTZA Num toString) shown
         ++ [grandTotalRow (toString (grandTotal users))]
  /\ (forall before userId after,
        users = before ++ (userId, []) :: after ->
        Part000.downloadAllUsersCSV_rows LocalTZA users
        = Part000.downloadAllUsersCSV_rows LocalTZA (before ++ after)
        /\ App.downloadAllUsersCSV_rows LocalTZA users
           = App.downloadAllUsersCSV_rows LocalTZA (before ++ after)).
Proof.
  intro shown.
  split; [apply grandTotal_fold|].
  split.
  { rewrite grandTotal_fold, fold_totals_nonEmpty. fold shown.
    unfold JsObject.values. rewrite map_map. reflexivity. }
  split; [apply downloadAllUsersCSV_rows_Part000|].
  split; [apply downloadAllUsersCSV_rows_App|].
  intros before userId after ->.
  rewrite !downloadAllUsersCSV_rows_Part000, !downloadAllUsersCSV_rows_App.
  rewrite grandTotal_drop_empty, !filter_app.
  split; reflexivity.
Qed.

End Totals.

End ExportFacts.

(** ** Suggestions *)

Lemma startsWith_spec (s search : string) :
  startsWith s search = true <-> exists rest, s = (search ++ rest)%string.
Proof.
  revert s. induction search as [|a search IH]; intro s; simpl.
  - split; [intros _; exists s; reflexivity | intros _; destruct s; reflexivity].
  - destruct s as [|b s]; simpl.
    + split; [discriminate | intros [rest H]; discriminate].
    + rewrite andb_true_iff, Ascii.eqb_eq, IH. split.
      * intros [-> [rest ->]]. exists rest. reflexivity.
      * intros [rest [= -> ->]]. split; [reflexivity | exists rest; reflexivity].
Qed.

Lemma includes_spec (s search : string) :
  includes s search = true
  <-> exists before after, s = (before ++ search ++ after)%string.
Proof.
  induction s as [|c s IH]; cbn [includes].
  - rewrite orb_false_r, startsWith_spec. split.
    + intros [rest H]. exists ""%string, rest. exact H.
    + intros [[|b before] [after H]]; simpl in H.
      * exists after. exact H.
      * discriminate.
  - rewrite orb_true_iff, startsWith_spec, IH. split.
    + intros [[rest H] | [before [after H]]].
      * exists ""%string, rest. exact H.
      * exists (String c before), after. simpl. rewrite H. reflexivity.
    + intros [[|b before] [after H]]; simpl in H.
      * left. exists after. exact H.
      * right. injection H as _ H. exists before, after. exact H.
Qed.

Lemma trimEnd_empty_iff (s : string) : trimEnd s = ""%string <-> blank s = true.
Proof.
  induction s as [|c s IH]; simpl.
  - split; reflexivity.
  - rewrite andb_true_iff, <- IH.
    destruct (trimEnd s) as [|d rest]; destruct (isWhiteSpace c);
      split; intro H; try discriminate; try (destruct H; discriminate); auto.
Qed.

Lemma blank_trimStart (s : string) : blank (trimStart s) = blank s.
Proof.
  induction s as [|c s IH]; simpl; [reflexivity|].
  destruct (isWhiteSpace c) eqn:E; simpl; [exact IH | rewrite E; reflexivity].
Qed.

Lemma trim_truthy (s : string) : truthy (trim s) = negb (blank s).
Proof.
  unfold truthy, trim. f_equal.
  rewrite <- blank_trimStart.
  destruct (blank (trimStart s)) eqn:E.
  - apply trimEnd_empty_iff in E. rewrite E. reflexivity.
  - apply String.eqb_neq. intro H. apply trimEnd_empty_iff in H. congruence.
Qed.

Section Suggestions.

Context {N : JsNumber}.

(** C8 (as amended).  For an input that is empty or holds only white space
    the suggestions are the empty sequence.  For any other input they are
    exactly the user IDs whose lower-case form contains the lower-case form
    of the input (not trimmed) as a substring, each in its original case, in
    the order in which the stored object enumerates its keys: array indices
    first, ascending, then the other IDs in insertion order.  That order is
    kept as users are added: a new ID that is not a canonical array index is
    enumerated last, a new ID that is one is enumerated after the array
    indices up to it and before every other key, and an existing ID keeps
    its place. *)
Theorem C8_suggestions_filter_keys (partialId : string) (ls : Storage) :
  let users := getStoredUsers ls in
  let matches id := includes (toLowerCase id) (toLowerCase partialId) in
  (blank partialId = true -> Part000.suggest partialId ls = [])
  /\ (blank partialId = false ->
      Part000.suggest partialId ls = filter matches (JsObject.keys users)
      /\ forall id,
           In id (Part000.suggest partialId ls)
           <-> In id (JsObject.keys users)
               /\ exists before after,
                    toLowerCase id
                    = (before ++ toLowerCase partialId ++ after)%string)
  /\ (forall id records,
        JsObject.has users id = true ->
        JsObject.keys (JsObject.set users id records) = JsObject.keys users)
  /\ (forall id records,
        JsObject.has users id = false -> JsObject.arrayIndex id = None ->
        JsObject.keys (JsObject.set users id records) = JsObject.keys users ++ [id])
  /\ (forall id records n,
        JsObject.has users id = false -> JsObject.arrayIndex id = Some n ->
        exists before after,
          JsObject.keys users = before ++ after
          /\ JsObject.keys (JsObject.set users id records) = before ++ id :: after
          /\ Forall (fun k => exists m, JsObject.arrayIndex k = Some m /\ m <= n)
                    before
          /\ match after with
             | [] => True
             | k :: _ => match JsObject.arrayIndex k with
                         | Some m => n < m
                         | None => True
                         end
             end)
  /\ (forall id records,
        enumerationOrder (JsObject.keys users) = true ->
        enumerationOrder (JsObject.keys (JsObject.set users id records)) = true).
Proof.
  intros users matches.
  split.
  { intro Hblank. unfold Part000.suggest.
    rewrite trim_truthy, Hblank. reflexivity. }
  split.
  { intro Hblank.
    assert (Heq : Part000.suggest partialId ls
                  = filter matches (JsObject.keys users)).
    { unfold Part000.suggest. rewrite trim_truthy, Hblank. reflexivity. }
    split; [exact Heq|].
    intro id. rewrite Heq, filter_In. unfold matches.
    rewrite includes_spec. reflexivity. }
  split; [intros id records Hhas; apply keys_set_existing; exact Hhas|].
  split; [intros id records Hhas Hidx; apply keys_set_new_name; assumption|].
  split; [|intros id records Hord; apply enumerationOrder_set; exact Hord].
  intros id records n Hhas Hidx.
  unfold JsObject.set. rewrite Hhas, Hidx.
  destruct (insertIndex_split n users id records)
    as (before & after & Husers & Hins & Hbefore & Hafter).
  exists (JsObject.keys before), (JsObject.keys after).
  unfold JsObject.keys in *.
  split; [rewrite Husers at 1; apply map_app|].
  split; [rewrite Hins, map_app; reflexivity|].
  split.
  - apply Forall_map. exact Hbefore.
  - destruct after as [|e after]; [exact I | exact Hafter].
Qed.

End Suggestions.

(** ** The properties at concrete inputs *)


(** The scenario of the specification: two records 90 minutes apart, a
    threshold of 60 minutes, and [now] 100 minutes after the first. *)
Example scenario_alice :
  totalConsumption aliceRecords = Int 50
  /\ minutesSinceLastConsumption aliceRecords 6000000 = Some 10
  /\ Part000.waitingTimeNeeded
       (Part000.mkState "alice" false (Some "alice"%string) "" aliceRecords
                        (Int 60) [] false) 6000000 = 50
  /\ Part000.warningActive
       (Part000.mkState "alice" false (Some "alice"%string) "" aliceRecords
                        (Int 60) [] false) 6000000 = true.
Proof. repeat split. Qed.





Lemma C6_witness :
  grandTotal (getStoredUsers store) = Int 55
  /\ fold_left add
       (map (fun e => sumAmounts (snd e)) (filter nonEmpty (getStoredUsers store)))
       zero = Int 55
  /\ Part000.downloadAllUsersCSV_rows utc (getStoredUsers store)
     = Part000.downloadAllUsersCSV_rows utc
         [("alice"%string, aliceRecords); ("ALex"%string, [entry 1 5])].
Proof.
  destruct (C6_all_users_export_totals (L := IntNumber_laws) utc
              (getStoredUsers store))
    as (_ & Hsum & _ & _ & Hdrop).
  split; [reflexivity|].
  split; [rewrite <- Hsum; reflexivity|].
  apply (Hdrop [("alice"%string, aliceRecords)] "bob"%string
               [("ALex"%string, [entry 1 5])]).
  reflexivity.
Defined.

(** In [src/src/App.jsx] the total of the single-user export is the number
    as it is, "50", not its one-decimal form "50.0". *)
Lemma C7_counterexample :
  App.downloadCSV_rows utc aliceRecords
  = [[Str "Date"; Str "Time"; Str "Amount (ml)"];
     [Str "1970-01-01"; Str "00:00:00"; Num (Int 30)];
     [Str "1970-01-01"; Str "01:30:00"; Num (Int 20)];
     [];
     [Str "Total Consumption"; Str ""; Str "50 ml"]]
  /\ (toFixed1 (sumAmounts aliceRecords) ++ " ml")%string = "50.0 ml"%string.
Proof. split; reflexivity. Qed.

(** The input is one space and the user "a b" exists: its lower-case form
    contains the input, and nothing is suggested.  And with the users "21"
    and "12" created in this order, the input "1" lists "12" first. *)
Lemma C8_counterexample :
  includes (toLowerCase "a b") (toLowerCase " ") = true
  /\ Part000.suggest " "
       (mkStorage (N := IntNumber) (Some [("a b"%string, [])]) None) = []
  /\ Part000.suggest "1"
       (snd (Part000.handleCreateUser (typedId000 "12")
               (snd (Part000.handleCreateUser (typedId000 "21") emptyStore))))
     = ["12"; "21"]%string.
Proof. repeat split. Qed.

Lemma C8_witness :
  blank "AL" = false
  /\ Part000.suggest "AL" store = ["alice"; "ALex"]%string
  /\ blank "  " = true
  /\ Part000.suggest "  " store = [].
Proof.
  destruct (C8_suggestions_filter_keys "AL" store) as (_ & Hsome & _).
  destruct (C8_suggestions_filter_keys "  " store) as (Hnone & _).
  split; [reflexivity|].
  split; [destruct (Hsome eq_refl) as [Heq _]; rewrite Heq; reflexivity|].
  split; [reflexivity|].
  apply Hnone. reflexivity.
Defined.

Lemma C10_witness :
  App.currentUser (bobTyped "30") <> Some "alice"%string
  /\ JsObject.get
       (getStoredUsers (snd (App.handleAddRecord (bobTyped "30") store 77)))
       "alice" = Some aliceRecords
  /\ waitingTime (snd (Part000.handleAddRecord parseInt10 (bobTyped000 "30") store 77))
     = Some "45"%string.
Proof.
  assert (H0 : App.currentUser (bobTyped "30") <> Some "alice"%string)
    by discriminate.
  assert (H : Part000.currentUser (bobTyped000 "30") <> Some "alice"%string)
    by discriminate.
  destruct (C10_add_record_frame parseInt10 (bobTyped000 "30") (bobTyped "30")
              store 77 "alice"%string H H0)
    as (_ & Hwait & Hget0 & _).
  split; [exact H0|].
  split; [rewrite Hget0; reflexivity|].
  rewrite Hwait. reflexivity.
Defined.


Lemma waiting_time_setting_witness :
  parseInt10 (N := IntNumber) "45" = Int 45
  /\ waitingTime (snd (Part000.handleWaitingTimeChange "45" (bobTyped000 "") emptyStore))
     = Some "45"%string
  /\ parseInt10 (N := IntNumber) "-3" = Int (-3)
  /\ Part000.handleWaitingTimeChange "-3" (bobTyped000 "") emptyStore
     = (bobTyped000 "", emptyStore).
Proof.
  destruct (waiting_time_setting "45" (bobTyped000 "") emptyStore)
    as (_ & _ & Hset & _).
  destruct (waiting_time_setting "-3" (bobTyped000 "") emptyStore)
    as (_ & _ & _ & Hskip).
  split; [reflexivity|].
  split; [apply (Hset 45); [reflexivity | lia | in_range]|].
  split; [reflexivity|].
  apply Hskip. right. exists (-3). split; [reflexivity | lia].
Defined.

(** * Part IV: further properties *)

(** ** Reading numbers back *)

Lemma isDigit_not_space (c : ascii) : isDigit c = true -> isWhiteSpace c = false.
Proof.
  unfold isDigit, isWhiteSpace. intro H.
  apply andb_true_iff in H. destruct H as [H1 H2].
  apply Z.leb_le in H1. apply Z.leb_le in H2.
  destruct (Z.leb_spec 9 (code c)), (Z.leb_spec (code c) 13),
    (Z.eqb_spec (code c) 32), (Z.eqb_spec (code c) 160);
    simpl; try reflexivity; lia.
Qed.

(** After a digit there is no sign to strip. *)
Lemma sign_of_digit {A : Type} (c : ascii) (r : string) (minus plus : string -> A)
    (other : A) :
  isDigit c = true ->
  match String c r with
  | String "-" r' => minus r'
  | String "+" r' => plus r'
  | _ => other
  end = other.
Proof.
  destruct c as [[] [] [] [] [] [] [] []]; intro H;
    try reflexivity; discriminate H.
Qed.

Lemma digitsPrefix_numeral (d : Decimal.uint) :
  forall acc seen,
    digitsPrefix acc seen (NilEmpty.string_of_uint d)
    = (uintValue acc d, seen || nonNil d).
Proof.
  induction d; intros acc seen; cbn [NilEmpty.string_of_uint uintValue nonNil];
    try (rewrite orb_false_r; reflexivity);
    rewrite orb_true_r; cbn [digitsPrefix];
    change (isDigit _) with true; cbv iota; rewrite IHd;
    unfold digitValue; simpl code; rewrite orb_true_l; reflexivity.
Qed.

Lemma uintValue_of_uint_acc (d : Decimal.uint) :
  forall acc, Z.pos (Pos.of_uint_acc d acc) = uintValue (Z.pos acc) d.
Proof.
  induction d; intro acc; cbn [Pos.of_uint_acc uintValue];
    try reflexivity; rewrite IHd; f_equal; lia.
Qed.

Lemma uintValue_of_uint (d : Decimal.uint) :
  Z.of_N (Pos.of_uint d) = uintValue 0 d.
Proof.
  induction d; cbn [Pos.of_uint uintValue]; try reflexivity;
    try exact IHd; cbn [Z.of_N]; rewrite uintValue_of_uint_acc; reflexivity.
Qed.

Lemma natToString_numeral (n : Z) :
  0 <= n ->
  exists c r,
    natToString n = String c r /\ isDigit c = true
    /\ digitsPrefix 0 false (natToString n) = (n, true).
Proof.
  intro Hn. unfold natToString.
  set (d := N.to_uint (Z.to_N n)).
  assert (Hval : uintValue 0 d = n).
  { rewrite <- uintValue_of_uint. subst d.
    change (Pos.of_uint (N.to_uint (Z.to_N n)))
      with (N.of_uint (N.to_uint (Z.to_N n))).
    rewrite DecimalN.Unsigned.of_to. lia. }
  assert (Hnil : d <> Decimal.Nil).
  { subst d. destruct (Z.to_N n); cbn; [discriminate|].
    apply DecimalPos.Unsigned.to_uint_nonnil. }
  assert (Hs : NilZero.string_of_uint d = NilEmpty.string_of_uint d).
  { destruct d; [congruence | reflexivity..]. }
  rewrite Hs.
  assert (Hpre : digitsPrefix 0 false (NilEmpty.string_of_uint d) = (n, true)).
  { rewrite digitsPrefix_numeral, Hval. destruct d; [congruence | reflexivity..]. }
  destruct d; [congruence | ..]; cbn [NilEmpty.string_of_uint] in *;
    eexists _, _; (split; [reflexivity|]); (split; [reflexivity | exact Hpre]).
Qed.

(** [parseInt] reads back the decimal text of every integer. *)
Lemma parseInt10_intToString {N : JsNumber} (z : Z) :
  parseInt10 (intToString z) = ofZ z /\ truthy (intToString z) = true.
Proof.
  unfold intToString. destruct (Z.ltb_spec z 0) as [Hneg | Hpos].
  - destruct (natToString_numeral (- z) ltac:(lia)) as (c & r & Hs & Hc & Hd).
    split; [|reflexivity].
    unfold parseInt10. cbn [append trimStart].
    change (isWhiteSpace "-") with false. cbv iota.
    rewrite Hd. f_equal. lia.
  - destruct (natToString_numeral z Hpos) as (c & r & Hs & Hc & Hd).
    split; [|rewrite Hs; reflexivity].
    unfold parseInt10. rewrite Hs in *. cbn [trimStart].
    rewrite (isDigit_not_space c Hc).
    rewrite (sign_of_digit c r (fun r' => (-1, r')) (fun r' => (1, r'))
               (1, String c r) Hc).
    rewrite Hd. f_equal. lia.
Qed.

Lemma digitsPrefix_stops (ds : string) (c : ascii) (rest : string) :
  allDigits ds = true -> isDigit c = false ->
  forall acc seen,
    digitsPrefix acc seen (ds ++ String c rest) = digitsPrefix acc seen ds.
Proof.
  intros Hds Hc. induction ds as [|a ds IH]; intros acc seen.
  - cbn. rewrite Hc. reflexivity.
  - cbn [allDigits] in Hds. apply andb_true_iff in Hds. destruct Hds as [Ha Hds].
    cbn [append digitsPrefix]. rewrite Ha. apply IH. exact Hds.
Qed.

(** [parseInt] stops at the first character that is not a digit: what
    follows a run of digits does not count. *)
Lemma parseInt10_stops {N : JsNumber} (ds : string) (c : ascii) (rest : string) :
  allDigits ds = true -> ds <> ""%string -> isDigit c = false ->
  parseInt10 (ds ++ String c rest) = parseInt10 ds.
Proof.
  intros Hds Hne Hc. destruct ds as [|a ds]; [congruence|].
  pose proof Hds as Hall.
  cbn [allDigits] in Hds. apply andb_true_iff in Hds. destruct Hds as [Ha _].
  unfold parseInt10. cbn [append trimStart].
  rewrite (isDigit_not_space a Ha).
  rewrite (sign_of_digit a (ds ++ String c rest)
             (fun r' => (-1, r')) (fun r' => (1, r'))
             (1, String a (ds ++ String c rest)) Ha).
  rewrite (sign_of_digit a ds (fun r' => (-1, r')) (fun r' => (1, r'))
             (1, String a ds) Ha).
  change (String a (ds ++ String c rest)) with (String a ds ++ String c rest)%string.
  rewrite (digitsPrefix_stops (String a ds) c rest Hall Hc). reflexivity.
Qed.

(** ** The waiting-time setting across reloads *)

Section WaitingTimeRoundTrip.

Context {N : JsNumber}.

(** The waiting time that is saved is the waiting time that is read back,
    for [NaN] and for every integer up to 2^53 in magnitude (from 1e21 on
    the saved text has an exponent, and [parseInt] stops at it); saving it
    leaves the users alone; and a change the handler accepts, up to 2^53, is
    what the component starts with after a reload. *)
Theorem waiting_time_round_trip (minutes : IntNum) (value : string)
    (st : Part000.State) (ls : Storage) :
  safeNumber minutes ->
  Part000.getStoredWaitingTime (Part000.saveWaitingTime minutes ls) = minutes
  /\ getStoredUsers (Part000.saveWaitingTime minutes ls) = getStoredUsers ls
  /\ (forall z, parseInt10 (N := IntNumber) value = Int z -> 0 < z ->
        safeInteger z ->
        Part000.waitingMinutes
          (Part000.initialState
             (snd (Part000.handleWaitingTimeChange value st ls)))
        = Int z).
Proof.
  intros _.
  assert (Hrt : forall m (l : Storage),
             Part000.getStoredWaitingTime (Part000.saveWaitingTime m l) = m).
  { intros m l. unfold Part000.getStoredWaitingTime, Part000.saveWaitingTime.
    cbn [waitingTime]. destruct m as [|z]; [reflexivity|].
    cbn [IntNum_toString].
    destruct (parseInt10_intToString (N := IntNumber) z) as [Hparse Htruthy].
    rewrite Htruthy. exact Hparse. }
  split; [apply Hrt|]. split; [reflexivity|].
  intros z Hz Hpos _.
  unfold Part000.initialState. cbn [Part000.waitingMinutes].
  unfold Part000.handleWaitingTimeChange. rewrite Hz.
  apply Z.ltb_lt in Hpos. rewrite Hpos. cbn [snd]. apply Hrt.
Qed.

(** In [src/src/App.jsx] the amount is read with [parseInt]: whatever
    follows the leading digits of the input (a decimal point and a fraction,
    an exponent) is dropped, so the input stores what its leading digits
    alone would store. *)
Theorem add_record_App_keeps_leading_digits
    (ds : string) (c : ascii) (rest : string)
    (st : App.State) (ls : Storage) (now : Z) :
  allDigits ds = true -> ds <> ""%string -> isDigit c = false ->
  snd (App.handleAddRecord (App.setAmount (ds ++ String c rest) st) ls now)
  = snd (App.handleAddRecord (App.setAmount ds st) ls now)
  /\ App.records
       (fst (App.handleAddRecord (App.setAmount (ds ++ String c rest) st) ls now))
     = App.records (fst (App.handleAddRecord (App.setAmount ds st) ls now)).
Proof.
  intros Hds Hne Hc.
  pose proof (parseInt10_stops ds c rest Hds Hne Hc) as Hparse.
  assert (Ht1 : truthy (ds ++ String c rest) = true).
  { destruct ds; [congruence | reflexivity]. }
  assert (Ht2 : truthy ds = true).
  { destruct ds; [congruence | reflexivity]. }
  unfold App.handleAddRecord, App.setAmount, App.selectedUser.
  cbn [App.amount_input App.currentUser App.userId App.showNewUserPrompt App.records].
  rewrite Ht1, Ht2, Hparse.
  destruct (App.currentUser st) as [id|]; [|split; reflexivity].
  destruct (truthy id); [|split; reflexivity].
  destruct (JsObject.lookup (getStoredUsers ls) id); split; reflexivity.
Qed.

End WaitingTimeRoundTrip.

(** ** What the store keeps *)

Section StoreInvariants.

Context {V : Type}.

Implicit Types (o : JsObject.obj V) (k : string) (v : V).

Lemma has_In o k : JsObject.has o k = true <-> In k (JsObject.keys o).
Proof.
  unfold JsObject.has, JsObject.keys.
  induction o as [|[k0 v0] o IH]; cbn [JsObject.get map fst In].
  - split; [discriminate | contradiction].
  - destruct (String.eqb k0 k) eqn:E.
    + apply String.eqb_eq in E. split; [intros _; left; exact E | reflexivity].
    + apply String.eqb_neq in E. rewrite IH. split; [auto | intros [H|H]; [contradiction | exact H]].
Qed.

Lemma keys_insertIndex_Add n o k v :
  Add k (JsObject.keys o) (JsObject.keys (JsObject.insertIndex n k v o)).
Proof.
  destruct (insertIndex_split n o k v) as (before & after & Ho & Hins & _).
  unfold JsObject.keys. rewrite Hins. rewrite Ho at 1.
  rewrite !map_app. cbn [map fst]. apply Add_app.
Qed.

(** The keys after an assignment: the same keys when the key was there, one
    more key when it was not. *)
Lemma keys_set_cases o k v :
  (JsObject.has o k = true
   /\ JsObject.keys (JsObject.set o k v) = JsObject.keys o)
  \/ (JsObject.has o k = false
      /\ Add k (JsObject.keys o) (JsObject.keys (JsObject.set o k v))).
Proof.
  unfold JsObject.set. destruct (JsObject.has o k) eqn:Hhas.
  - left. split; [reflexivity | apply keys_replace].
  - right. split; [reflexivity|].
    destruct (JsObject.arrayIndex k) as [n|].
    + apply keys_insertIndex_Add.
    + unfold JsObject.keys. rewrite map_app. cbn [map fst].
      rewrite <- (app_nil_r (map fst o)) at 1. apply Add_app.
Qed.

Lemma NoDup_keys_set o k v :
  NoDup (JsObject.keys o) -> NoDup (JsObject.keys (JsObject.set o k v)).
Proof.
  intro Hnd. destruct (keys_set_cases o k v) as [[_ Heq] | [Hhas Hadd]].
  - rewrite Heq. exact Hnd.
  - apply (NoDup_Add Hadd). split; [exact Hnd|].
    intro Hin. apply has_In in Hin. congruence.
Qed.

Lemma has_set_keeps o k v k' :
  JsObject.has o k' = true -> JsObject.has (JsObject.set o k v) k' = true.
Proof.
  rewrite !has_In. intro Hin.
  destruct (keys_set_cases o k v) as [[_ Heq] | [_ Hadd]].
  - rewrite Heq. exact Hin.
  - apply (Add_in Hadd). right. exact Hin.
Qed.

End StoreInvariants.

Section HandlersKeepStore.

Context {N : JsNumber}.

Variable parseFloat : string -> num.

Lemma storeInvariant_set (users : Users) id records :
  storeInvariant users ->
  storeInvariant (JsObject.set users id records)
  /\ keepsUsers users (JsObject.set users id records).
Proof.
  intros [Hnd Hord]. split; [split|].
  - apply NoDup_keys_set. exact Hnd.
  - apply enumerationOrder_set. exact Hord.
  - intros k Hk. apply has_set_keeps. exact Hk.
Qed.

Lemma storeInvariant_assign (users : Users) id records :
  storeInvariant users ->
  storeInvariant (JsObject.assign users id records)
  /\ keepsUsers users (JsObject.assign users id records).
Proof.
  intro Hinv. destruct (assign_cases users id records) as [-> | ->].
  - apply storeInvariant_set. exact Hinv.
  - split; [exact Hinv | intros k Hk; exact Hk].
Qed.

(** Creating a user and adding a record never remove a user from the stored
    mapping, never store a user ID twice and keep the keys in the order of
    [Object.keys]; the mapping read from an empty storage has these
    properties to begin with.  Both files. *)
Theorem handlers_keep_store_invariant
    (st : Part000.State) (st0 : App.State) (ls : Storage) (now : Z) :
  storeInvariant (getStoredUsers ls) ->
  let users := getStoredUsers ls in
  let kept (after : Storage) :=
    storeInvariant (getStoredUsers after)
    /\ keepsUsers users (getStoredUsers after) in
  kept (snd (Part000.handleCreateUser st ls))
  /\ kept (snd (Part000.handleAddRecord parseFloat st ls now))
  /\ kept (snd (App.handleCreateUser st0 ls))
  /\ kept (snd (App.handleAddRecord st0 ls now))
  /\ storeInvariant (getStoredUsers (mkStorage None (waitingTime ls))).
Proof.
  intros Hinv users kept. subst kept. cbv beta.
  assert (Hsame : storeInvariant users /\ keepsUsers users users).
  { split; [exact Hinv | intros k Hk; exact Hk]. }
  split; [apply storeInvariant_assign; exact Hinv|].
  split.
  { unfold Part000.handleAddRecord.
    destruct (truthy (Part000.amount_input st)); [|exact Hsame].
    destruct (Part000.selectedUser st) as [user|]; [|exact Hsame].
    destruct (JsObject.lookup (getStoredUsers ls) user); [|exact Hsame|];
      apply storeInvariant_assign; exact Hinv. }
  split; [apply storeInvariant_assign; exact Hinv|].
  split.
  { unfold App.handleAddRecord.
    destruct (truthy (App.amount_input st0)); [|exact Hsame].
    destruct (App.selectedUser st0) as [user|]; [|exact Hsame].
    destruct (JsObject.lookup (getStoredUsers ls) user); [|exact Hsame|];
      apply storeInvariant_assign; exact Hinv. }
  split; [constructor | reflexivity].
Qed.

(** *** Sequences of events *)

Lemma recordsOf_set_same (users : Users) id records :
  recordsOf (JsObject.set users id records) id = records.
Proof. unfold recordsOf. rewrite get_set_same. reflexivity. Qed.

Lemma add_keeps_selection_Part000 (st : Part000.State) ls now :
  Part000.selectedUser (fst (Part000.handleAddRecord parseFloat st ls now))
  = Part000.selectedUser st.
Proof.
  unfold Part000.handleAddRecord.
  destruct (truthy (Part000.amount_input st)); [|reflexivity].
  destruct (Part000.selectedUser st) as [user|] eqn:E; [|exact E].
  destruct (JsObject.lookup (getStoredUsers ls) user); [|exact E|];
    cbn [fst]; unfold Part000.selectedUser in *; cbn [Part000.currentUser];
    exact E.
Qed.

Lemma add_keeps_selection_App (st : App.State) ls now :
  App.selectedUser (fst (App.handleAddRecord st ls now)) = App.selectedUser st.
Proof.
  unfold App.handleAddRecord.
  destruct (truthy (App.amount_input st)); [|reflexivity].
  destruct (App.selectedUser st) as [user|] eqn:E; [|exact E].
  destruct (JsObject.lookup (getStoredUsers ls) user); [|exact E|];
    cbn [fst]; unfold App.selectedUser in *; cbn [App.currentUser];
    exact E.
Qed.

Lemma lookup_after_add (users : Users) user records :
  JsObject.lookup users user <> JsObject.Inherited ->
  JsObject.lookup (JsObject.set users user records) user <> JsObject.Inherited.
Proof.
  intros _. rewrite (lookup_get _ _ _ (get_set_same users user records)).
  discriminate.
Qed.

(** Two records added one after the other, the amount typed again in
    between, end up after the user's earlier records in the order in which
    they were added, in the store and on the screen; nothing of the earlier
    list is lost or moved.  This is so for a selected user that is stored
    or whose ID names no member of [Object.prototype], and for amounts that
    JSON stores as they are.  Both files. *)
Theorem add_record_twice_appends_in_order
    (st : Part000.State) (st0 : App.State) (ls : Storage)
    (user amount1 amount2 : string) (now1 now2 : Z) :
  amount1 <> ""%string -> amount2 <> ""%string ->
  Part000.selectedUser st = Some user -> App.selectedUser st0 = Some user ->
  JsObject.lookup (getStoredUsers ls) user <> JsObject.Inherited ->
  storable (parseFloat amount1) = true -> storable (parseFloat amount2) = true ->
  storable (parseInt10 amount1) = true -> storable (parseInt10 amount2) = true ->
  let first := Part000.handleAddRecord parseFloat
                 (Part000.setAmount amount1 st) ls now1 in
  let second := Part000.handleAddRecord parseFloat
                  (Part000.setAmount amount2 (fst first)) (snd first) now2 in
  let first0 := App.handleAddRecord (App.setAmount amount1 st0) ls now1 in
  let second0 := App.handleAddRecord
                   (App.setAmount amount2 (fst first0)) (snd first0) now2 in
  recordsOf (getStoredUsers (snd second)) user
    = recordsOf (getStoredUsers ls) user
        ++ [mkRecord now1 (parseFloat amount1); mkRecord now2 (parseFloat amount2)]
  /\ Part000.records (fst second) = recordsOf (getStoredUsers (snd second)) user
  /\ recordsOf (getStoredUsers (snd second0)) user
     = recordsOf (getStoredUsers ls) user
         ++ [mkRecord now1 (parseInt10 amount1); mkRecord now2 (parseInt10 amount2)]
  /\ App.records (fst second0) = recordsOf (getStoredUsers (snd second0)) user.
Proof.
  intros H1 H2 Hsel Hsel0 Hl _ _ _ _ first second first0 second0.
  destruct (addRecord_appends_Part000 parseFloat
              (Part000.setAmount amount1 st) ls now1 user H1 Hsel Hl)
    as (Hdoc1 & Hlist1 & _).
  destruct (addRecord_appends_App (App.setAmount amount1 st0) ls now1 user
              H1 Hsel0 Hl)
    as (Hdoc10 & Hlist10 & _).
  assert (Hsel2 : Part000.selectedUser (Part000.setAmount amount2 (fst first))
                  = Some user).
  { change (Part000.selectedUser (fst first) = Some user).
    subst first. rewrite add_keeps_selection_Part000. exact Hsel. }
  assert (Hsel20 : App.selectedUser (App.setAmount amount2 (fst first0))
                   = Some user).
  { change (App.selectedUser (fst first0) = Some user).
    subst first0. rewrite add_keeps_selection_App. exact Hsel0. }
  assert (Hl2 : JsObject.lookup (getStoredUsers (snd first)) user
                <> JsObject.Inherited).
  { unfold getStoredUsers. fold first in Hdoc1. rewrite Hdoc1.
    apply lookup_after_add. exact Hl. }
  assert (Hl20 : JsObject.lookup (getStoredUsers (snd first0)) user
                 <> JsObject.Inherited).
  { unfold getStoredUsers. fold first0 in Hdoc10. rewrite Hdoc10.
    apply lookup_after_add. exact Hl. }
  destruct (addRecord_appends_Part000 parseFloat
              (Part000.setAmount amount2 (fst first)) (snd first) now2 user
              H2 Hsel2 Hl2)
    as (_ & Hlist2 & Hshown2 & _).
  destruct (addRecord_appends_App
              (App.setAmount amount2 (fst first0)) (snd first0) now2 user
              H2 Hsel20 Hl20)
    as (_ & Hlist20 & Hshown20 & _).
  cbv zeta in Hlist1, Hlist10, Hlist2, Hlist20, Hshown2, Hshown20.
  cbn [Part000.setAmount Part000.amount_input App.setAmount App.amount_input]
    in Hlist1, Hlist10, Hlist2, Hlist20, Hshown2, Hshown20.
  fold first in Hlist1. fold first0 in Hlist10.
  fold second in Hlist2, Hshown2. fold second0 in Hlist20, Hshown20.
  rewrite Hlist1 in Hlist2, Hshown2. rewrite Hlist10 in Hlist20, Hshown20.
  rewrite <- app_assoc in Hlist2, Hshown2, Hlist20, Hshown20.
  split; [exact Hlist2|]. split; [rewrite Hlist2; exact Hshown2|].
  split; [exact Hlist20 | rewrite Hlist20; exact Hshown20].
Qed.

(** A user that was just created, with an ID that is neither empty nor
    ["__proto__"], can receive a record at once: after creating the user,
    typing an amount that JSON stores as it is and adding, the user's stored
    list is exactly that one record, whatever the user had before; the
    screen shows it, and so does a search for the ID from any state of the
    component in which the ID is typed.  Both files. *)
Theorem create_then_add_then_search
    (st searching : Part000.State) (st0 searching0 : App.State) (ls : Storage)
    (id amount : string) (now : Z) :
  id <> ""%string -> id <> "__proto__"%string -> amount <> ""%string ->
  storable (parseFloat amount) = true -> storable (parseInt10 amount) = true ->
  Part000.userId st = id -> App.userId st0 = id ->
  Part000.userId searching = id -> App.userId searching0 = id ->
  let created := Part000.handleCreateUser st ls in
  let added := Part000.handleAddRecord parseFloat
                 (Part000.setAmount amount (fst created)) (snd created) now in
  let found := Part000.handleSearch None searching (snd added) in
  let created0 := App.handleCreateUser st0 ls in
  let added0 := App.handleAddRecord
                  (App.setAmount amount (fst created0)) (snd created0) now in
  let found0 := App.handleSearch searching0 (snd added0) in
  JsObject.get (getStoredUsers (snd added)) id
    = Some [mkRecord now (parseFloat amount)]
  /\ Part000.records (fst added) = [mkRecord now (parseFloat amount)]
  /\ Part000.records found = [mkRecord now (parseFloat amount)]
  /\ Part000.currentUser found = Some id
  /\ JsObject.get (getStoredUsers (snd added0)) id
     = Some [mkRecord now (parseInt10 amount)]
  /\ App.records (fst added0) = [mkRecord now (parseInt10 amount)]
  /\ App.records found0 = [mkRecord now (parseInt10 amount)]
  /\ App.currentUser found0 = Some id.
Proof.
  intros Hid Hproto Hamount _ _ Hst Hst0 Hsearching Hsearching0
         created added found created0 added0 found0.
  assert (Hsel : Part000.selectedUser (Part000.setAmount amount (fst created))
                 = Some id).
  { subst created. unfold Part000.selectedUser, Part000.setAmount,
      Part000.handleCreateUser. cbn [fst Part000.currentUser].
    rewrite Hst. apply truthy_true_iff in Hid. rewrite Hid. reflexivity. }
  assert (Hsel0 : App.selectedUser (App.setAmount amount (fst created0))
                  = Some id).
  { subst created0. unfold App.selectedUser, App.setAmount,
      App.handleCreateUser. cbn [fst App.currentUser].
    rewrite Hst0. apply truthy_true_iff in Hid. rewrite Hid. reflexivity. }
  assert (Hnew : JsObject.get (getStoredUsers (snd created)) id = Some []).
  { subst created. unfold Part000.handleCreateUser. cbn [snd].
    rewrite getStoredUsers_saveUsers, Hst, (assign_set_name _ _ _ Hproto).
    apply get_set_same. }
  assert (Hnew0 : JsObject.get (getStoredUsers (snd created0)) id = Some []).
  { subst created0. unfold App.handleCreateUser. cbn [snd].
    rewrite getStoredUsers_saveUsers, Hst0, (assign_set_name _ _ _ Hproto).
    apply get_set_same. }
  assert (Hl : JsObject.lookup (getStoredUsers (snd created)) id
               <> JsObject.Inherited).
  { rewrite (lookup_get _ _ _ Hnew). discriminate. }
  assert (Hl0 : JsObject.lookup (getStoredUsers (snd created0)) id
                <> JsObject.Inherited).
  { rewrite (lookup_get _ _ _ Hnew0). discriminate. }
  destruct (addRecord_appends_Part000 parseFloat
              (Part000.setAmount amount (fst created)) (snd created) now id
              Hamount Hsel Hl)
    as (Hdoc & _ & Hshown & _).
  destruct (addRecord_appends_App
              (App.setAmount amount (fst created0)) (snd created0) now id
              Hamount Hsel0 Hl0)
    as (Hdoc0 & _ & Hshown0 & _).
  cbv zeta in Hdoc, Hshown, Hdoc0, Hshown0.
  cbn [Part000.setAmount Part000.amount_input App.setAmount App.amount_input]
    in Hdoc, Hshown, Hdoc0, Hshown0.
  fold added in Hdoc, Hshown. fold added0 in Hdoc0, Hshown0.
  unfold recordsOf in Hdoc, Hshown, Hdoc0, Hshown0.
  rewrite Hnew in Hdoc, Hshown. rewrite Hnew0 in Hdoc0, Hshown0.
  cbn [app] in Hdoc, Hshown, Hdoc0, Hshown0.
  assert (Hget : JsObject.get (getStoredUsers (snd added)) id
                 = Some [mkRecord now (parseFloat amount)]).
  { unfold getStoredUsers. rewrite Hdoc. apply get_set_same. }
  assert (Hget0 : JsObject.get (getStoredUsers (snd added0)) id
                  = Some [mkRecord now (parseInt10 amount)]).
  { unfold getStoredUsers. rewrite Hdoc0. apply get_set_same. }
  split; [exact Hget|]. split; [exact Hshown|].
  subst found found0. unfold Part000.handleSearch, App.handleSearch.
  rewrite Hsearching, Hsearching0.
  rewrite (lookup_get _ _ _ Hget), (lookup_get _ _ _ Hget0).
  repeat split; assumption.
Qed.

(** The empty user ID: creating it stores an entry for it, but the empty
    string counts as no current user, so the form is not shown and adding a
    record does nothing, whatever the amount.  Both files. *)
Theorem empty_user_id_cannot_receive_records
    (st : Part000.State) (st0 : App.State) (ls : Storage)
    (amount : string) (now : Z) :
  Part000.userId st = ""%string -> App.userId st0 = ""%string ->
  let created := Part000.handleCreateUser st ls in
  let created0 := App.handleCreateUser st0 ls in
  JsObject.get (getStoredUsers (snd created)) "" = Some []
  /\ Part000.showAddForm (fst created) = false
  /\ Part000.handleAddRecord parseFloat
       (Part000.setAmount amount (fst created)) (snd created) now
     = (Part000.setAmount amount (fst created), snd created)
  /\ JsObject.get (getStoredUsers (snd created0)) "" = Some []
  /\ App.showAddForm (fst created0) = false
  /\ App.handleAddRecord (App.setAmount amount (fst created0)) (snd created0) now
     = (App.setAmount amount (fst created0), snd created0).
Proof.
  intros Hst Hst0 created created0. subst created created0.
  unfold Part000.handleCreateUser, App.handleCreateUser. cbv zeta.
  cbn [fst snd]. rewrite !getStoredUsers_saveUsers, Hst, Hst0.
  rewrite !(assign_set_name _ ""%string _ ltac:(discriminate)), !get_set_same.
  repeat split.
  - unfold Part000.handleAddRecord, Part000.setAmount, Part000.selectedUser.
    cbn [Part000.currentUser Part000.amount_input]. change (truthy "") with false.
    destruct (truthy amount); reflexivity.
  - unfold App.handleAddRecord, App.setAmount, App.selectedUser.
    cbn [App.currentUser App.amount_input]. change (truthy "") with false.
    destruct (truthy amount); reflexivity.
Qed.

(** A search looks the typed ID up in the stored mapping and, failing
    that, among the members that every object inherits.  An ID that is a key
    of the stored mapping is selected with its stored records and the prompt
    is hidden.  For an ID that is neither a key nor the name of an inherited
    member the prompt is shown, the selection and the records are cleared,
    and adding a record afterwards does nothing, whatever the amount.  An ID
    that is not a key but names an inherited member, such as "constructor",
    is selected without a prompt, and the render that follows fails.  Both
    files. *)
Theorem search_selects_exact_key_or_prompts
    (st : Part000.State) (st0 : App.State) (ls : Storage)
    (id amount : string) (now : Z) :
  Part000.userId st = id -> App.userId st0 = id ->
  let users := getStoredUsers ls in
  let found := Part000.handleSearch None st ls in
  let found0 := App.handleSearch st0 ls in
  (JsObject.has users id = true ->
   Part000.currentUser found = Some id
   /\ Part000.records found = recordsOf users id
   /\ Part000.showNewUserPrompt found = false
   /\ Part000.searchBreaksRender None st ls = false
   /\ App.currentUser found0 = Some id
   /\ App.records found0 = recordsOf users id
   /\ App.showNewUserPrompt found0 = false
   /\ App.searchBreaksRender st0 ls = false)
  /\ (JsObject.has users id = false -> JsObject.inherited id = false ->
      Part000.currentUser found = None
      /\ Part000.records found = []
      /\ Part000.showNewUserPrompt found = true
      /\ Part000.handleAddRecord parseFloat (Part000.setAmount amount found) ls now
         = (Part000.setAmount amount found, ls)
      /\ App.currentUser found0 = None
      /\ App.records found0 = []
      /\ App.showNewUserPrompt found0 = true
      /\ App.handleAddRecord (App.setAmount amount found0) ls now
         = (App.setAmount amount found0, ls))
  /\ (JsObject.has users id = false -> JsObject.inherited id = true ->
      Part000.currentUser found = Some id
      /\ Part000.showNewUserPrompt found = false
      /\ Part000.searchBreaksRender None st ls = true
      /\ App.currentUser found0 = Some id
      /\ App.showNewUserPrompt found0 = false
      /\ App.searchBreaksRender st0 ls = true).
Proof.
  intros Hst Hst0 users found found0. subst found found0.
  unfold Part000.handleSearch, App.handleSearch, Part000.searchBreaksRender,
    App.searchBreaksRender, JsObject.lookup, JsObject.has, recordsOf.
  rewrite Hst, Hst0. fold users.
  destruct (JsObject.get users id) as [l|].
  - split; [intros _; repeat split|].
    split; intro H; discriminate H.
  - split; [intro H; discriminate H|].
    split; intros _ Hinh; rewrite Hinh.
    + repeat split.
      * unfold Part000.handleAddRecord, Part000.setAmount, Part000.selectedUser.
        cbn [Part000.currentUser Part000.amount_input].
        destruct (truthy amount); reflexivity.
      * unfold App.handleAddRecord, App.setAmount, App.selectedUser.
        cbn [App.currentUser App.amount_input].
        destruct (truthy amount); reflexivity.
    + repeat split.
Qed.

End HandlersKeepStore.

(** ** Suggestions and selection *)

Lemma isWhiteSpace_lowerChar (c : ascii) :
  isWhiteSpace (lowerChar c) = isWhiteSpace c.
Proof.
  destruct c as [[] [] [] [] [] [] [] []]; reflexivity.
Qed.

Lemma blank_toLowerCase (s : string) : blank (toLowerCase s) = blank s.
Proof.
  induction s as [|c s IH]; [reflexivity|].
  cbn [toLowerCase blank]. rewrite isWhiteSpace_lowerChar, IH. reflexivity.
Qed.

Lemma includes_refl (s : string) : includes s s = true.
Proof.
  apply includes_spec. exists ""%string, ""%string.
  cbn [append]. induction s as [|c s IH]; [reflexivity|].
  cbn [append]. f_equal. exact IH.
Qed.

Section SuggestionFacts.

Context {N : JsNumber}.

Lemma suggest_nonblank (partialId : string) (ls : Storage) :
  blank partialId = false ->
  Part000.suggest partialId ls
  = filter (fun id => includes (toLowerCase id) (toLowerCase partialId))
           (JsObject.keys (getStoredUsers ls)).
Proof.
  intro Hblank. unfold Part000.suggest. rewrite trim_truthy, Hblank. reflexivity.
Qed.

Lemma suggest_blank (partialId : string) (ls : Storage) :
  blank partialId = true -> Part000.suggest partialId ls = [].
Proof.
  intro Hblank. unfold Part000.suggest. rewrite trim_truthy, Hblank. reflexivity.
Qed.

Lemma suggest_In_keys (partialId : string) (ls : Storage) id :
  In id (Part000.suggest partialId ls) -> In id (JsObject.keys (getStoredUsers ls)).
Proof.
  destruct (blank partialId) eqn:Hblank.
  - rewrite suggest_blank by exact Hblank. contradiction.
  - rewrite suggest_nonblank by exact Hblank. intro H.
    apply filter_In in H. apply H.
Qed.

(** Clicking a suggestion always selects a stored user: whatever was typed,
    every suggested ID is a key of the stored mapping, and the click puts
    the ID in the input, selects it with its stored records, hides the
    prompt and empties the suggestions. *)
Theorem suggestion_click_selects_stored_user
    (typed suggestion : string) (st : Part000.State) (ls : Storage) :
  In suggestion (Part000.suggest typed ls) ->
  let clicked := Part000.handleSuggestionClick suggestion st ls in
  JsObject.has (getStoredUsers ls) suggestion = true
  /\ Part000.userId clicked = suggestion
  /\ Part000.currentUser clicked = Some suggestion
  /\ Part000.records clicked = recordsOf (getStoredUsers ls) suggestion
  /\ Part000.showNewUserPrompt clicked = false
  /\ Part000.suggestions clicked = [].
Proof.
  intros Hin clicked.
  assert (Hhas : JsObject.has (getStoredUsers ls) suggestion = true).
  { apply has_In. exact (suggest_In_keys typed ls suggestion Hin). }
  split; [exact Hhas|].
  subst clicked. unfold Part000.handleSuggestionClick, Part000.handleSearch,
    JsObject.lookup, recordsOf.
  unfold JsObject.has in Hhas.
  destruct (JsObject.get (getStoredUsers ls) suggestion); [|discriminate Hhas].
  repeat split.
Qed.

(** The match is case-insensitive and complete: two inputs with the same
    lower-case form get the same suggestions, and an input that is the ID
    of a stored user, in any case, and not blank, is answered with a list
    that contains that user. *)
Theorem suggestions_ignore_case
    (typed typed' id : string) (ls : Storage) :
  toLowerCase typed = toLowerCase typed' ->
  Part000.suggest typed ls = Part000.suggest typed' ls
  /\ (JsObject.has (getStoredUsers ls) id = true ->
      blank typed = false -> toLowerCase typed = toLowerCase id ->
      In id (Part000.suggest typed ls)).
Proof.
  intro Hlower. split.
  - assert (Hblank : blank typed = blank typed').
    { rewrite <- (blank_toLowerCase typed), <- (blank_toLowerCase typed'), Hlower.
      reflexivity. }
    destruct (blank typed) eqn:E.
    + rewrite (suggest_blank typed ls E), (suggest_blank typed' ls); auto.
    + rewrite (suggest_nonblank typed ls E), (suggest_nonblank typed' ls); auto.
      rewrite Hlower. reflexivity.
  - intros Hhas Hblank Hid.
    rewrite (suggest_nonblank typed ls Hblank). apply filter_In. split.
    + apply has_In. exact Hhas.
    + rewrite Hid. apply includes_refl.
Qed.

(** The suggestions come back after a click.  When the clicked suggestion
    differs from the typed text, the click changes [userId], so the effect
    runs after the render and fills the suggestions again, the clicked ID
    among them; when it is the typed text itself, the effect does not run
    and the suggestions stay empty. *)
Theorem suggestions_after_click
    (suggestion : string) (st : Part000.State) (ls : Storage) :
  In suggestion (Part000.suggest (Part000.userId st) ls) ->
  let clicked := Part000.handleSuggestionClick suggestion st ls in
  let rendered := Part000.commit st clicked ls in
  (suggestion <> Part000.userId st ->
   Part000.suggestions rendered = Part000.suggest suggestion ls
   /\ (blank suggestion = false -> In suggestion (Part000.suggestions rendered)))
  /\ (suggestion = Part000.userId st -> Part000.suggestions rendered = []).
Proof.
  intros Hin clicked rendered.
  assert (Hhas : JsObject.has (getStoredUsers ls) suggestion = true).
  { apply has_In. exact (suggest_In_keys _ ls suggestion Hin). }
  assert (Hclicked : Part000.userId clicked = suggestion
                     /\ Part000.suggestions clicked = []).
  { subst clicked. unfold Part000.handleSuggestionClick, Part000.handleSearch,
      JsObject.lookup.
    unfold JsObject.has in Hhas.
    destruct (JsObject.get (getStoredUsers ls) suggestion); [|discriminate Hhas].
    split; reflexivity. }
  destruct Hclicked as [Huid Hsug].
  subst rendered. unfold Part000.commit. rewrite Huid.
  split.
  - intro Hne. apply not_eq_sym in Hne. apply String.eqb_neq in Hne.
    rewrite Hne. cbn [Part000.suggestions].
    split; [reflexivity|].
    intro Hblank. rewrite (suggest_nonblank suggestion ls Hblank).
    apply filter_In. split; [apply has_In; exact Hhas | apply includes_refl].
  - intros ->. rewrite String.eqb_refl. exact Hsug.
Qed.

End SuggestionFacts.

(** ** The warning and the waiting time shown in it *)

Lemma minutes_below_iff (x w : Z) :
  0 < w -> (Z.quot x 60000 < w <-> x < w * 60000).
Proof.
  intro Hw. destruct (quot_minute_cases x) as (q & r & Hx & Hq & Hr).
  rewrite Hq. lia.
Qed.

Section Warning.

Context {N : JsNumber}.

(** With a user selected, a last record at [t] and a positive waiting time
    [w], the warning is rendered exactly while [now] is before [t] plus [w]
    minutes.  When that instant is a date, the minutes the warning asks to
    wait are positive exactly while at least one whole minute is left; when
    it is beyond the range of dates, they are 0.  So a positive wait is
    never shown without the warning, and during the last minute the warning
    asks to wait 0 minutes.  In [src/src/App.jsx] the waiting time is 60.
    The times are time values of dates, less than 2^53 ms apart. *)
Theorem warning_and_wait_shown
    (st : Part000.State) (st0 : App.State) (t w now : Z) :
  Part000.selectedUser st <> None ->
  lastConsumptionTime (Part000.records st) = Some t ->
  Part000.waitingMinutes st = Int w -> 0 < w -> safeInteger w ->
  App.selectedUser st0 <> None ->
  lastConsumptionTime (App.records st0) = Some t ->
  validTime t -> validTime now -> exactMinutes now t ->
  (Part000.warningActive st now = true <-> now < t + w * 60000)
  /\ (validTime (t + w * 60000) ->
      (0 < Part000.waitingTimeNeeded st now <-> now + 60000 <= t + w * 60000))
  /\ (~ validTime (t + w * 60000) -> Part000.waitingTimeNeeded st now = 0)
  /\ (t + w * 60000 - 60000 < now < t + w * 60000 ->
      Part000.warningActive st now = true /\ Part000.waitingTimeNeeded st now = 0)
  /\ (App.warningActive st0 now = true <-> now < t + 60 * 60000)
  /\ (validTime (t + 60 * 60000) ->
      (0 < App.waitingTimeNeeded st0 now <-> now + 60000 <= t + 60 * 60000))
  /\ (t + 60 * 60000 - 60000 < now < t + 60 * 60000 ->
      App.warningActive st0 now = true /\ App.waitingTimeNeeded st0 now = 0).
Proof.
  intros Hsel Hlast Hw Hpos _ Hsel0 Hlast0 _ _ _.
  assert (Hwarn : Part000.warningActive st now = true <-> now < t + w * 60000).
  { unfold Part000.warningActive, minutesSinceLastConsumption.
    rewrite Hlast, Hw. destruct (Part000.selectedUser st); [|congruence].
    rewrite Z.ltb_lt. unfold differenceInMinutes, differenceInMilliseconds,
      MILLISECONDS_IN_MINUTE.
    rewrite (minutes_below_iff (now - t) w Hpos). lia. }
  assert (Hneed : Part000.waitingTimeNeeded st now = Part000.getWaitingTime t w now).
  { unfold Part000.waitingTimeNeeded. rewrite Hlast, Hw. reflexivity. }
  assert (Hwarn0 : App.warningActive st0 now = true <-> now < t + 60 * 60000).
  { unfold App.warningActive, minutesSinceLastConsumption.
    rewrite Hlast0. destruct (App.selectedUser st0); [|congruence].
    rewrite Z.ltb_lt. unfold differenceInMinutes, differenceInMilliseconds,
      MILLISECONDS_IN_MINUTE.
    rewrite (minutes_below_iff (now - t) 60 ltac:(lia)). lia. }
  assert (Hneed0 : App.waitingTimeNeeded st0 now = Part000.getWaitingTime t 60 now).
  { unfold App.waitingTimeNeeded. rewrite Hlast0. apply getWaitingTime_App_60. }
  rewrite Hneed, Hneed0.
  split; [exact Hwarn|].
  split; [apply getWaitingTime_pos_iff|].
  split; [apply getWaitingTime_invalid|].
  split.
  { intro Hlastmin. split; [apply Hwarn; lia | apply getWaitingTime_zero; lia]. }
  split; [exact Hwarn0|].
  split; [apply getWaitingTime_pos_iff|].
  intro Hlastmin. split; [apply Hwarn0; lia | apply getWaitingTime_zero; lia].
Qed.

End Warning.

(** ** Windows of the recent consumption *)

Section Windows.

Context {N : JsNumber}.

Implicit Types (records : list ConsumptionRecord).


Lemma filter_none {A : Type} (keep : A -> bool) (l : list A) :
  (forall x, In x l -> keep x = false) -> filter keep l = [].
Proof.
  induction l as [|x l IH]; intro H; [reflexivity|].
  cbn [filter]. rewrite (H x (or_introl eq_refl)).
  apply IH. intros y Hy. apply H. right. exact Hy.
Qed.


Section Monotone.

Context {L : JsNumberLaws N}.



End Monotone.

End Windows.

(** ** More on the exports *)

Section MoreExports.

Context {N : JsNumber}.

Variable LocalTZA : Z -> Z.

Implicit Types (records : list ConsumptionRecord) (users : Users).

Section EmptyExports.

Context {L : JsNumberLaws N}.

(** When no user has a record (in particular when nothing was ever stored)
    the all-users export is the header row and a grand total of 0, with no
    line for any user.  Both files. *)
Theorem all_users_export_without_records users :
  Forall noRecords users ->
  Part000.downloadAllUsersCSV_rows LocalTZA users
    = [allHeader; grandTotalRow (toFixed1 zero)]
  /\ App.downloadAllUsersCSV_rows LocalTZA users
     = [allHeader; grandTotalRow (toString zero)]
  /\ Part000.downloadAllUsersCSV_rows LocalTZA (getStoredUsers (mkStorage None None))
     = [allHeader; grandTotalRow (toFixed1 zero)].
Proof.
  intro Hnone.
  assert (Hfilter : filter nonEmpty users = []).
  { apply filter_none. intros e He.
    rewrite Forall_forall in Hnone. specialize (Hnone e He).
    unfold noRecords in Hnone. unfold nonEmpty. rewrite Hnone. reflexivity. }
  assert (Htotal : grandTotal users = zero).
  { rewrite grandTotal_fold, fold_totals_nonEmpty, Hfilter. reflexivity. }
  rewrite downloadAllUsersCSV_rows_Part000, downloadAllUsersCSV_rows_App.
  rewrite Hfilter, Htotal. repeat split.
Qed.

End EmptyExports.

End MoreExports.

(** ** After a record is added *)

Section AfterAdd.

Context {N : JsNumber}.

Variable parseFloat : string -> num.

Lemma lastConsumptionTime_snoc (records : list ConsumptionRecord) r :
  lastConsumptionTime (records ++ [r]) = Some (timestamp r).
Proof.
  unfold lastConsumptionTime. destruct records as [|r0 records]; cbn [app].
  - reflexivity.
  - rewrite last_last. reflexivity.
Qed.

Lemma getWaitingTime_full (t w : Z) :
  validTime (t + w * 60000) -> 0 <= w -> Part000.getWaitingTime t w t = w.
Proof.
  intros Hvalid Hw. rewrite (getWaitingTime_max _ _ _ Hvalid).
  replace (t + w * 60000 - t) with (w * 60000) by lia.
  rewrite Z.quot_mul by lia. lia.
Qed.

(** Adding a record starts the wait: in the state the handler returns, seen
    at the instant of the record, the statistics are rendered, no minute has
    passed since the last record, the warning is rendered, and the minutes
    to wait are the whole waiting time (60 in [src/src/App.jsx]) when the
    end of the wait is a date, and 0 when it is beyond the range of dates.
    This is so when the handler does not throw: the selected user is stored
    or its ID names no member of [Object.prototype]. *)
Theorem add_record_starts_the_wait
    (st : Part000.State) (st0 : App.State) (ls : Storage)
    (user : string) (w now : Z) :
  Part000.amount_input st <> ""%string -> Part000.selectedUser st = Some user ->
  Part000.waitingMinutes st = Int w -> 0 < w -> safeInteger w ->
  App.amount_input st0 <> ""%string -> App.selectedUser st0 = Some user ->
  JsObject.lookup (getStoredUsers ls) user <> JsObject.Inherited ->
  validTime now ->
  let after := fst (Part000.handleAddRecord parseFloat st ls now) in
  let after0 := fst (App.handleAddRecord st0 ls now) in
  Part000.showStatistics after = true
  /\ minutesSinceLastConsumption (Part000.records after) now = Some 0
  /\ Part000.warningActive after now = true
  /\ (validTime (now + w * 60000) -> Part000.waitingTimeNeeded after now = w)
  /\ (~ validTime (now + w * 60000) -> Part000.waitingTimeNeeded after now = 0)
  /\ App.showStatistics after0 = true
  /\ minutesSinceLastConsumption (App.records after0) now = Some 0
  /\ App.warningActive after0 now = true
  /\ (validTime (now + 60 * 60000) -> App.waitingTimeNeeded after0 now = 60).
Proof.
  intros Hamount Hsel Hw Hpos _ Hamount0 Hsel0 Hl _ after after0.
  destruct (addRecord_appends_Part000 parseFloat st ls now user Hamount Hsel Hl)
    as (_ & _ & Hrec & _).
  destruct (addRecord_appends_App st0 ls now user Hamount0 Hsel0 Hl)
    as (_ & _ & Hrec0 & _).
  cbv zeta in Hrec, Hrec0. fold after in Hrec. fold after0 in Hrec0.
  assert (Hs : Part000.selectedUser after = Some user).
  { subst after. rewrite add_keeps_selection_Part000. exact Hsel. }
  assert (Hs0 : App.selectedUser after0 = Some user).
  { subst after0. rewrite add_keeps_selection_App. exact Hsel0. }
  assert (Hwm : Part000.waitingMinutes after = Int w).
  { subst after. unfold Part000.handleAddRecord.
    apply truthy_true_iff in Hamount. rewrite Hamount, Hsel.
    destruct (JsObject.lookup (getStoredUsers ls) user); exact Hw. }
  assert (Hlast : lastConsumptionTime (Part000.records after) = Some now).
  { rewrite Hrec. apply lastConsumptionTime_snoc. }
  assert (Hlast0 : lastConsumptionTime (App.records after0) = Some now).
  { rewrite Hrec0. apply lastConsumptionTime_snoc. }
  assert (Hzero : differenceInMinutes now now = 0).
  { unfold differenceInMinutes, differenceInMilliseconds.
    rewrite Z.sub_diag. reflexivity. }
  unfold Part000.showStatistics, Part000.showAddForm, Part000.warningActive,
    Part000.waitingTimeNeeded, App.showStatistics, App.showAddForm,
    App.warningActive, App.waitingTimeNeeded, minutesSinceLastConsumption.
  rewrite Hs, Hs0, Hlast, Hlast0, Hwm, Hzero, Hrec, Hrec0.
  rewrite !length_app. cbn [List.length].
  rewrite !Nat.add_1_r. cbn [Nat.eqb negb andb].
  apply Z.ltb_lt in Hpos. rewrite Hpos.
  rewrite getWaitingTime_App_60.
  split; [reflexivity|]. split; [reflexivity|]. split; [reflexivity|].
  split; [intro Hv; apply getWaitingTime_full; [exact Hv | lia]|].
  split; [apply getWaitingTime_invalid|].
  split; [reflexivity|]. split; [reflexivity|]. split; [reflexivity|].
  intro Hv. apply getWaitingTime_full; [exact Hv | lia].
Qed.

(** A stored waiting time that [parseInt] cannot read switches the warning
    off: the component starts with [NaN] as waiting time, and with [NaN] the
    warning is never rendered and the minutes to wait are 0, whatever the
    records and the time. *)
Theorem unreadable_waiting_time_disables_warning
    (time : string) (ls : Storage) (st : Part000.State) (now : Z) :
  waitingTime ls = Some time -> time <> ""%string ->
  parseInt10 (N := IntNumber) time = NaN ->
  Part000.waitingMinutes (Part000.initialState ls) = NaN
  /\ (Part000.waitingMinutes st = NaN ->
      Part000.warningActive st now = false
      /\ Part000.waitingTimeNeeded st now = 0).
Proof.
  intros Hstored Hne Hnan. split.
  - unfold Part000.initialState, Part000.getStoredWaitingTime.
    cbn [Part000.waitingMinutes]. rewrite Hstored.
    apply truthy_true_iff in Hne. rewrite Hne. exact Hnan.
  - intro Hw. unfold Part000.warningActive, Part000.waitingTimeNeeded.
    rewrite Hw. split.
    + destruct (Part000.selectedUser st); [|reflexivity].
      destruct (minutesSinceLastConsumption _ now); reflexivity.
    + destruct (lastConsumptionTime _); reflexivity.
Qed.

End AfterAdd.

(** ** Sizes of the exports *)

Section ExportSizes.

Context {N : JsNumber}.

Variable LocalTZA : Z -> Z.

(** The single-user export has three rows besides one per record; the
    all-users export has two rows besides, for each user with records, one
    per record and three more.  Both files. *)
Theorem export_row_counts (records : list ConsumptionRecord) (users : Users) :
  let perUser :=
    list_sum (map (fun e => List.length (snd e) + 3)%nat (filter nonEmpty users)) in
  List.length (Part000.downloadCSV_rows LocalTZA records)
    = (List.length records + 3)%nat
  /\ List.length (App.downloadCSV_rows LocalTZA records)
     = (List.length records + 3)%nat
  /\ List.length (Part000.downloadAllUsersCSV_rows LocalTZA users)
     = (perUser + 2)%nat
  /\ List.length (App.downloadAllUsersCSV_rows LocalTZA users)
     = (perUser + 2)%nat.
Proof.
  intro perUser.
  assert (Hblocks : forall amountCell totalText (l : Users),
             List.length (flat_map (userBlock LocalTZA amountCell totalText) l)
             = list_sum (map (fun e => List.length (snd e) + 3)%nat l)).
  { intros amountCell totalText l. induction l as [|e l IH]; [reflexivity|].
    cbn [flat_map map list_sum]. rewrite length_app, IH.
    unfold userBlock. rewrite length_app, length_map. reflexivity. }
  rewrite downloadCSV_rows_Part000, downloadCSV_rows_App,
    downloadAllUsersCSV_rows_Part000, downloadAllUsersCSV_rows_App.
  rewrite !length_app, !length_map, !Hblocks. cbn [List.length].
  fold perUser. repeat split; lia.
Qed.

End ExportSizes.

(** ** The further properties at concrete inputs *)

Lemma waiting_time_round_trip_witness :
  safeNumber (Int 45)
  /\ parseInt10 (N := IntNumber) "45" = Int 45
  /\ Part000.getStoredWaitingTime
       (Part000.saveWaitingTime (Int 45) emptyStore) = Int 45
  /\ Part000.waitingMinutes
       (Part000.initialState
          (snd (Part000.handleWaitingTimeChange "45" (bobTyped000 "") emptyStore)))
     = Int 45.
Proof.
  assert (Hsafe : safeNumber (Int 45)) by (unfold safeNumber; in_range).
  destruct (waiting_time_round_trip (Int 45) "45" (bobTyped000 "") emptyStore
              Hsafe)
    as (Hrt & _ & Hreload).
  split; [exact Hsafe|]. split; [reflexivity|]. split; [exact Hrt|].
  apply Hreload; [reflexivity | lia | in_range].
Defined.

Lemma add_record_App_keeps_leading_digits_witness :
  allDigits "12" = true /\ isDigit "." = false
  /\ snd (App.handleAddRecord (App.setAmount "12.7" (bobTyped "")) store 77)
     = snd (App.handleAddRecord (App.setAmount "12" (bobTyped "")) store 77).
Proof.
  split; [reflexivity|]. split; [reflexivity|].
  apply (add_record_App_keeps_leading_digits "12" "." "7" (bobTyped "") store 77);
    [reflexivity | discriminate | reflexivity].
Defined.

Lemma store_satisfies_invariant : storeInvariant (getStoredUsers store).
Proof.
  split; [|reflexivity].
  repeat constructor; cbn; intuition discriminate.
Defined.

Lemma handlers_keep_store_invariant_witness :
  storeInvariant (getStoredUsers store)
  /\ storeInvariant
       (getStoredUsers (snd (App.handleAddRecord (bobTyped "30") store 77)))
  /\ keepsUsers (getStoredUsers store)
       (getStoredUsers (snd (Part000.handleCreateUser (typedId000 "alice") store))).
Proof.
  destruct (handlers_keep_store_invariant parseInt10
              (typedId000 "alice") (bobTyped "30") store 77
              store_satisfies_invariant)
    as ((_ & Hkeeps) & _ & _ & (Hinv & _) & _).
  split; [exact store_satisfies_invariant|].
  split; [exact Hinv | exact Hkeeps].
Defined.

Lemma add_record_twice_appends_in_order_witness :
  App.selectedUser (bobTyped "") = Some "bob"%string
  /\ JsObject.lookup (getStoredUsers store) "bob" = JsObject.Own []
  /\ storable (parseInt10 (N := IntNumber) "30") = true
  /\ storable (parseInt10 (N := IntNumber) "20") = true
  /\ recordsOf
       (getStoredUsers
          (snd (App.handleAddRecord
                  (App.setAmount "20"
                     (fst (App.handleAddRecord (App.setAmount "30" (bobTyped ""))
                             store 77)))
                  (snd (App.handleAddRecord (App.setAmount "30" (bobTyped ""))
                          store 77))
                  99)))
       "bob"
     = [entry 77 30; entry 99 20].
Proof.
  assert (Hl : JsObject.lookup (getStoredUsers store) "bob" <> JsObject.Inherited)
    by discriminate.
  destruct (add_record_twice_appends_in_order parseInt10
              (bobTyped000 "") (bobTyped "") store "bob" "30" "20" 77 99
              ltac:(discriminate) ltac:(discriminate) eq_refl eq_refl Hl
              eq_refl eq_refl eq_refl eq_refl)
    as (_ & _ & Hlist & _).
  split; [reflexivity|]. split; [reflexivity|]. split; [reflexivity|].
  split; [reflexivity | exact Hlist].
Defined.

Lemma create_then_add_then_search_witness :
  (App.userId (typedId "carol") = "carol"%string
   /\ App.userId (reloaded "carol") = "carol"%string
   /\ storable (parseInt10 (N := IntNumber) "30") = true)
  /\ App.records
       (App.handleSearch (reloaded "carol")
          (snd (App.handleAddRecord
                  (App.setAmount "30"
                     (fst (App.handleCreateUser (typedId "carol") store)))
                  (snd (App.handleCreateUser (typedId "carol") store)) 77)))
     = [entry 77 30].
Proof.
  destruct (create_then_add_then_search parseInt10
              (typedId000 "carol") (reloaded000 "carol" store)
              (typedId "carol") (reloaded "carol") store "carol" "30" 77
              ltac:(discriminate) ltac:(discriminate) ltac:(discriminate)
              eq_refl eq_refl eq_refl eq_refl eq_refl eq_refl)
    as (_ & _ & _ & _ & _ & _ & Hshown & _).
  split; [repeat split | exact Hshown].
Defined.

Lemma empty_user_id_cannot_receive_records_witness :
  App.userId (typedId "") = ""%string
  /\ JsObject.get
       (getStoredUsers (snd (App.handleCreateUser (typedId "") store))) ""
     = Some []
  /\ App.handleAddRecord
       (App.setAmount "30" (fst (App.handleCreateUser (typedId "") store)))
       (snd (App.handleCreateUser (typedId "") store)) 77
     = (App.setAmount "30" (fst (App.handleCreateUser (typedId "") store)),
        snd (App.handleCreateUser (typedId "") store)).
Proof.
  destruct (empty_user_id_cannot_receive_records parseInt10
              (typedId000 "") (typedId "") store "30" 77 eq_refl eq_refl)
    as (_ & _ & _ & Hget & _ & Hnoop).
  split; [reflexivity|]. split; [exact Hget | exact Hnoop].
Defined.

Lemma search_selects_exact_key_or_prompts_witness :
  JsObject.has (getStoredUsers store) "alice" = true
  /\ App.records (App.handleSearch (typedId "alice") store) = aliceRecords
  /\ (JsObject.has (getStoredUsers store) "Alice" = false
      /\ JsObject.inherited "Alice" = false)
  /\ Part000.showNewUserPrompt (Part000.handleSearch None (typedId000 "Alice") store)
     = true
  /\ (JsObject.has (getStoredUsers store) "constructor" = false
      /\ JsObject.inherited "constructor" = true)
  /\ App.currentUser (App.handleSearch (typedId "constructor") store)
     = Some "constructor"%string
  /\ App.searchBreaksRender (typedId "constructor") store = true.
Proof.
  destruct (search_selects_exact_key_or_prompts parseInt10
              (typedId000 "alice") (typedId "alice") store "alice" "" 0
              eq_refl eq_refl) as (Hfound & _).
  destruct (search_selects_exact_key_or_prompts parseInt10
              (typedId000 "Alice") (typedId "Alice") store "Alice" "" 0
              eq_refl eq_refl) as (_ & Hmissing & _).
  destruct (search_selects_exact_key_or_prompts parseInt10
              (typedId000 "constructor") (typedId "constructor") store
              "constructor" "" 0 eq_refl eq_refl) as (_ & _ & Hinherited).
  destruct (Hfound eq_refl) as (_ & _ & _ & _ & _ & Hrec & _).
  destruct (Hmissing eq_refl eq_refl) as (_ & _ & Hprompt & _).
  destruct (Hinherited eq_refl eq_refl) as (_ & _ & _ & Hcur & _ & Hbreaks).
  split; [reflexivity|]. split; [exact Hrec|].
  split; [split; reflexivity|]. split; [exact Hprompt|].
  split; [split; reflexivity|]. split; [exact Hcur | exact Hbreaks].
Defined.

Lemma suggestion_click_selects_stored_user_witness :
  In "ALex"%string (Part000.suggest "al" store)
  /\ Part000.currentUser
       (Part000.handleSuggestionClick "ALex" (typedId000 "al") store)
     = Some "ALex"%string.
Proof.
  assert (Hin : In "ALex"%string (Part000.suggest "al" store)).
  { right. left. reflexivity. }
  destruct (suggestion_click_selects_stored_user "al" "ALex" (typedId000 "al")
              store Hin) as (_ & _ & Hcur & _).
  split; [exact Hin | exact Hcur].
Defined.

Lemma suggestions_ignore_case_witness :
  toLowerCase "AL" = toLowerCase "al"
  /\ Part000.suggest "AL" store = Part000.suggest "al" store
  /\ In "ALex"%string (Part000.suggest "alex" store).
Proof.
  destruct (suggestions_ignore_case "AL" "al" "ALex" store eq_refl) as (Hsame & _).
  destruct (suggestions_ignore_case "alex" "alex" "ALex" store eq_refl)
    as (_ & Hfull).
  split; [reflexivity|]. split; [exact Hsame|].
  apply Hfull; reflexivity.
Defined.

Lemma suggestions_after_click_witness :
  In "ALex"%string (Part000.suggest (Part000.userId (typedId000 "al")) store)
  /\ Part000.suggestions
       (Part000.commit (typedId000 "al")
          (Part000.handleSuggestionClick "ALex" (typedId000 "al") store) store)
     = ["ALex"]%string.
Proof.
  assert (Hin : In "ALex"%string
                  (Part000.suggest (Part000.userId (typedId000 "al")) store)).
  { right. left. reflexivity. }
  destruct (suggestions_after_click "ALex" (typedId000 "al") store Hin)
    as (Hdiffers & _).
  destruct (Hdiffers ltac:(discriminate)) as [Heq _].
  split; [exact Hin|]. rewrite Heq. reflexivity.
Defined.

Lemma warning_and_wait_shown_witness :
  (lastConsumptionTime aliceRecords = Some 5400000
   /\ safeInteger 60 /\ validTime 5400000 /\ validTime 8999000
   /\ exactMinutes 8999000 5400000)
  /\ Part000.warningActive
       (Part000.mkState "alice" false (Some "alice"%string) "" aliceRecords
                        (Int 60) [] false) 8999000 = true
  /\ Part000.waitingTimeNeeded
       (Part000.mkState "alice" false (Some "alice"%string) "" aliceRecords
                        (Int 60) [] false) 8999000 = 0.
Proof.
  destruct (warning_and_wait_shown
              (Part000.mkState "alice" false (Some "alice"%string) "" aliceRecords
                               (Int 60) [] false)
              (App.mkState "alice" false (Some "alice"%string) "" aliceRecords)
              5400000 60 8999000
              ltac:(discriminate) eq_refl eq_refl ltac:(lia) ltac:(in_range)
              ltac:(discriminate) eq_refl
              ltac:(in_range) ltac:(in_range) ltac:(in_range))
    as (_ & _ & _ & Hlastminute & _).
  split; [split; [reflexivity | repeat split; in_range]|].
  apply Hlastminute. lia.
Defined.



Lemma all_users_export_without_records_witness :
  Forall noRecords [("bob"%string, @nil (ConsumptionRecord (N := IntNumber)))]
  /\ App.downloadAllUsersCSV_rows utc
       [("bob"%string, @nil (ConsumptionRecord (N := IntNumber)))]
     = [[Str "User ID"; Str "Date"; Str "Time"; Str "Amount (ml)"];
        [Str "Grand Total"; Str ""; Str ""; Str "0 ml"]].
Proof.
  assert (Hnone : Forall noRecords
                    [("bob"%string, @nil (ConsumptionRecord (N := IntNumber)))]).
  { repeat constructor. }
  destruct (all_users_export_without_records (L := IntNumber_laws) utc _ Hnone)
    as (_ & Happ & _).
  split; [exact Hnone | exact Happ].
Defined.

Lemma add_record_starts_the_wait_witness :
  (Part000.selectedUser (bobTyped000 "30") = Some "bob"%string
   /\ JsObject.lookup (getStoredUsers store) "bob" = JsObject.Own []
   /\ safeInteger 45 /\ validTime 77 /\ validTime (77 + 45 * 60000))
  /\ Part000.warningActive
       (fst (Part000.handleAddRecord parseInt10 (bobTyped000 "30") store 77)) 77
     = true
  /\ Part000.waitingTimeNeeded
       (fst (Part000.handleAddRecord parseInt10 (bobTyped000 "30") store 77)) 77
     = 45.
Proof.
  assert (Hl : JsObject.lookup (getStoredUsers store) "bob" <> JsObject.Inherited)
    by discriminate.
  destruct (add_record_starts_the_wait parseInt10
              (bobTyped000 "30") (bobTyped "30") store "bob" 45 77
              ltac:(discriminate) eq_refl eq_refl ltac:(lia) ltac:(in_range)
              ltac:(discriminate) eq_refl Hl ltac:(in_range))
    as (_ & _ & Hwarn & Hwait & _).
  split; [split; [reflexivity | split; [reflexivity | repeat split; in_range]]|].
  split; [exact Hwarn | apply Hwait; in_range].
Defined.

Lemma unreadable_waiting_time_disables_warning_witness :
  parseInt10 (N := IntNumber) "soon" = NaN
  /\ Part000.waitingMinutes
       (Part000.initialState
          (mkStorage (N := IntNumber) None (Some "soon"%string))) = NaN.
Proof.
  destruct (unreadable_waiting_time_disables_warning "soon"
              (mkStorage (N := IntNumber) None (Some "soon"%string))
              (bobTyped000 "") 0 eq_refl ltac:(discriminate) eq_refl)
    as (Hstart & _).
  split; [reflexivity | exact Hstart].
Defined.
